(** * ExtensionsPart: the extensions search view of the workbench

    A shallow embedding of
    [src/vs/workbench/parts/extensions/electron-browser/extensionsPart.ts]:
    the row renderer, the debounced search and the highlight overlay.

    The component is a single-threaded event handler over a DOM.  Each
    method and each callback of the source is a function from the
    component's state to an [Outcome]; what the source leaves pending (the
    debounce timer, the gallery query, the readme download) is kept in the
    state and settled by a later event.  Objects that the source shares by
    reference (row templates) live in a store and are named by their index
    there. *)

From Stdlib Require Import ZArith String Bool.
From stdpp Require Import base list strings.

Local Open Scope string_scope.
Local Open Scope Z_scope.
Local Open Scope list_scope.

(** ** Gallery data ([../common/extensions], the fields the part reads) *)

Record IGalleryVersion := {
  iconUrl : string;
  readmeUrl : string;
  downloadHeaders : list (string * string)
}.

Record IGalleryInformation := {
  publisherDisplayName : string;
  versions : list IGalleryVersion
}.

Record IExtension := {
  name : string;
  publisher : string;
  displayName : string;
  version : string;
  description : string;
  galleryInformation : option IGalleryInformation
}.

Inductive ExtensionState := Uninstalled | Installed | Outdated.

Record IExtensionEntry := {
  extension : IExtension;
  state : ExtensionState
}.

(** Modelled from the spec: [getExtensionId] ([../common/extensionsUtil]) is
    not part of the sources at hand; the spec derives an entry's identity
    from publisher and name, written [pub.ext]. *)
Definition getExtensionId (e : IExtension) : string :=
  publisher e +:+ "." +:+ name e.

(** ** Paging ([vs/base/common/paging]) *)

Record IPager (A : Type) := {
  firstPage : list A;
  total : Z;
  pageSize : Z;
  getPage : option (nat -> list A)
}.
Arguments firstPage {A} _.
Arguments total {A} _.
Arguments pageSize {A} _.
Arguments getPage {A} _.

(** Modelled from the spec: [mapPager] is not part of the sources at hand; it
    applies the function to the first page and to every page loaded later,
    and keeps the counts. *)
Definition mapPager {A B : Type} (pager : IPager A) (fn : A -> B) : IPager B :=
  {| firstPage := map fn (firstPage pager);
     total := total pager;
     pageSize := pageSize pager;
     getPage := match getPage pager with
                | Some g => Some (fun i => map fn (g i))
                | None => None
                end |}.

Record PagedModel (A : Type) := { pager : IPager A }.
Arguments pager {A} _.

Definition EmptyModel : PagedModel IExtensionEntry :=
  {| pager := {| firstPage := []; total := 0; pageSize := 0; getPage := None |} |}.

(** ** The DOM the part touches *)

(** Where a row's [.extension-container] hangs: under the row the list gave
    to [renderTemplate], or under the overlay. *)
Inductive ElementRef := Row (k : nat) | OverlayEl.

Inductive Css := Unset | Zero | Px (z : Z).

(** [ITemplateData]: [container] is kept as its [parentElement], [element]
    as its [loading] class, [icon] as its [style.display] and [src], the
    other handles as their text. *)
Record ITemplateData := {
  tpl_extension : option IExtension;
  container_parent : ElementRef;
  element_loading : bool;
  icon_display : string;
  icon_src : string;
  name_text : string;
  version_text : string;
  author_text : string;
  description_text : string;
  body_html : string
}.

Inductive Listener :=
| RootClick
| SearchInput
| SelectionChange
| TransitionEnd (n : nat).

#[global] Instance Listener_eq_dec : EqDecision Listener.
Proof. solve_decision. Defined.

#[global] Instance ElementRef_eq_dec : EqDecision ElementRef.
Proof. solve_decision. Defined.

(** [IDisposable]: the shared [empty], what [addDisposableListener] returns,
    and the closure built at the end of the highlight setter, with the three
    values it captures. *)
Inductive IDisposable :=
| empty
| listenerDisposable (l : Listener)
| highlightTeardown (listener : Listener) (container : ElementRef) (data : nat).

(** ** Pending work *)

Inductive Settled (A : Type) := Fulfilled (a : A) | Rejected (reason : string).
Arguments Fulfilled {A} _.
Arguments Rejected {A} _.

(** [p.then(f)] with a success callback only: a rejection passes through. *)
Definition then_ {A B : Type} (p : Settled A) (f : A -> Settled B) : Settled B :=
  match p with
  | Fulfilled a => f a
  | Rejected r => Rejected r
  end.

Record Pending := {
  deadline : Z;
  call : nat;
  text : string
}.

(** Modelled from the spec: [ThrottledDelayer] ([vs/base/common/async]) is
    not part of the sources at hand.  Per the spec's Debouncer, [trigger]
    discards the invocation scheduled by an earlier call that has not
    started yet and schedules the new one [delay] ms from now; [calls]
    numbers the calls. *)
Record Delayer := {
  timer : option Pending;
  calls : nat
}.

Definition trigger (d : Delayer) (now : Z) (txt : string) (delay : Z) : Delayer :=
  {| timer := Some {| deadline := now + delay; call := calls d; text := txt |};
     calls := S (calls d) |}.

Record Query := {
  query_call : nat;
  query_text : string
}.

(** The readme request started by a highlight: the template and the two
    values of the first version that its callbacks close over. *)
Record Fetch := {
  fetch_id : nat;
  fetch_data : nat;
  fetch_url : string;
  fetch_headers : list (string * string)
}.

Record ProxyAgent := {
  agent_url : string;
  agent_proxyUrl : string;
  agent_strictSSL : bool
}.

Record IRequestOptions := {
  url : string;
  agent : ProxyAgent;
  strictSSL : bool;
  headers : option (list (string * string))
}.

(** What the collaborators answer to one readme request: the two user
    settings, the download and the markdown parser. *)
Record FetchReply := {
  reply_settings : Settled (string * bool);
  reply_download : IRequestOptions -> Settled string;
  reply_parse : string -> Settled string
}.

(** Side effects in the order they happen. *)
Inductive Effect :=
| AppendChild (parent : ElementRef) (data : nat)
| AddListener (l : Listener)
| RemoveListener (l : Listener)
| SetBody (data : nat) (html : string)
| SetModel
| GalleryQuery (q : Query)
| Download (opts : IRequestOptions)
| UnhandledRejection (reason : string).

(** ** Classes of the root element *)

(** Modelled from the spec: [addClass] and [removeClass]
    ([vs/base/browser/dom]) are not among the sources, and the spec does not
    describe them.  The class attribute is kept as the list of its words.
    Both helpers look for their argument as a whole, from word boundary to
    word boundary: [addClass] appends the argument unless it is found,
    [removeClass] cuts out its first occurrence.  An argument with a space in
    it, as at line 285, is the list of its words. *)
Fixpoint starts_with (className classes : list string) : bool :=
  match className, classes with
  | [], _ => true
  | _ :: _, [] => false
  | a :: className', b :: classes' =>
      String.eqb a b && starts_with className' classes'
  end.

Fixpoint findClassName (className classes : list string) : bool :=
  match classes with
  | [] => false
  | _ :: classes' =>
      starts_with className classes || findClassName className classes'
  end.

Definition hasClass (className classes : list string) : bool :=
  match className with
  | [] => false
  | _ => findClassName className classes
  end.

Definition addClass (className classes : list string) : list string :=
  match classes with
  | [] => className
  | _ => if hasClass className classes then classes else classes ++ className
  end.

Fixpoint cutClassName (className classes : list string) : list string :=
  match classes with
  | [] => []
  | c :: classes' =>
      if starts_with className classes
      then drop (length className) classes
      else c :: cutClassName className classes'
  end.

Definition removeClass (className classes : list string) : list string :=
  match className with
  | [] => classes
  | _ => cutClassName className classes
  end.

(** Lines 270-272. *)
Definition collapse_classes (classes : list string) : list string :=
  removeClass ["highlight-in"]
    (removeClass ["animated"] (removeClass ["highlighted"] classes)).

(** Line 285: one call with both words. *)
Definition expand_classes (classes : list string) : list string :=
  addClass ["animated"; "highlight-in"] classes.

(** Line 200. *)
Definition deselect_classes (classes : list string) : list string :=
  removeClass ["animated"] classes.

(** Lines 296-298. *)
Definition settled_classes (classes : list string) : list string :=
  addClass ["highlighted"]
    (removeClass ["highlight-in"] (removeClass ["animated"] classes)).

(** [style.height = v + 'px']: the DOM keeps the old value when the length
    is negative.  Heights are taken as whole pixels. *)
Definition set_height (v : Z) (old : Css) : Css :=
  if 0 <=? v then Px v else old.

(** ** The component *)

Record Dom := {
  heap : list ITemplateData;
  listeners : list Listener;
  root_className : list string;
  searchBox_value : string;
  extensionsBox_height : Css;
  extensionsBox_loading : bool;
  overlay_top : Css;
  overlay_height : Css
}.

Record Env := {
  clock : Z;
  queries : list Query;
  fetches : list Fetch;
  nextFetch : nat;
  nextListener : nat
}.

Record ExtensionsPart := {
  dom : Dom;
  env : Env;
  templates : list nat;
  list_model : PagedModel IExtensionEntry;
  searchDelayer : Delayer;
  _highlight : option nat;
  highlightDisposable : IDisposable;
  toDispose : list IDisposable;
  log : list Effect
}.

(** A handler either returns or throws; either way the mutations made so
    far stay. *)
Inductive Outcome := Done (s : ExtensionsPart) | Threw (s : ExtensionsPart).

Definition andThen (o : Outcome) (f : ExtensionsPart -> Outcome) : Outcome :=
  match o with
  | Done s => f s
  | Threw s => Threw s
  end.

Definition resume (o : Outcome) : ExtensionsPart :=
  match o with Done s => s | Threw s => s end.

Definition returns (o : Outcome) : bool :=
  match o with Done _ => true | Threw _ => false end.

(** ** Field updates *)

Definition with_dom (f : Dom -> Dom) (s : ExtensionsPart) : ExtensionsPart :=
  {| dom := f (dom s); env := env s; templates := templates s;
     list_model := list_model s; searchDelayer := searchDelayer s;
     _highlight := _highlight s; highlightDisposable := highlightDisposable s;
     toDispose := toDispose s; log := log s |}.

Definition with_env (f : Env -> Env) (s : ExtensionsPart) : ExtensionsPart :=
  {| dom := dom s; env := f (env s); templates := templates s;
     list_model := list_model s; searchDelayer := searchDelayer s;
     _highlight := _highlight s; highlightDisposable := highlightDisposable s;
     toDispose := toDispose s; log := log s |}.

Definition set_templates (v : list nat) (s : ExtensionsPart) : ExtensionsPart :=
  {| dom := dom s; env := env s; templates := v;
     list_model := list_model s; searchDelayer := searchDelayer s;
     _highlight := _highlight s; highlightDisposable := highlightDisposable s;
     toDispose := toDispose s; log := log s |}.

Definition set_list_model (v : PagedModel IExtensionEntry) (s : ExtensionsPart) : ExtensionsPart :=
  {| dom := dom s; env := env s; templates := templates s;
     list_model := v; searchDelayer := searchDelayer s;
     _highlight := _highlight s; highlightDisposable := highlightDisposable s;
     toDispose := toDispose s; log := log s ++ [SetModel] |}.

Definition set_searchDelayer (v : Delayer) (s : ExtensionsPart) : ExtensionsPart :=
  {| dom := dom s; env := env s; templates := templates s;
     list_model := list_model s; searchDelayer := v;
     _highlight := _highlight s; highlightDisposable := highlightDisposable s;
     toDispose := toDispose s; log := log s |}.

Definition set__highlight (v : option nat) (s : ExtensionsPart) : ExtensionsPart :=
  {| dom := dom s; env := env s; templates := templates s;
     list_model := list_model s; searchDelayer := searchDelayer s;
     _highlight := v; highlightDisposable := highlightDisposable s;
     toDispose := toDispose s; log := log s |}.

Definition set_highlightDisposable (v : IDisposable) (s : ExtensionsPart) : ExtensionsPart :=
  {| dom := dom s; env := env s; templates := templates s;
     list_model := list_model s; searchDelayer := searchDelayer s;
     _highlight := _highlight s; highlightDisposable := v;
     toDispose := toDispose s; log := log s |}.

Definition set_toDispose (v : list IDisposable) (s : ExtensionsPart) : ExtensionsPart :=
  {| dom := dom s; env := env s; templates := templates s;
     list_model := list_model s; searchDelayer := searchDelayer s;
     _highlight := _highlight s; highlightDisposable := highlightDisposable s;
     toDispose := v; log := log s |}.

Definition emit (e : Effect) (s : ExtensionsPart) : ExtensionsPart :=
  {| dom := dom s; env := env s; templates := templates s;
     list_model := list_model s; searchDelayer := searchDelayer s;
     _highlight := _highlight s; highlightDisposable := highlightDisposable s;
     toDispose := toDispose s; log := log s ++ [e] |}.

Definition dom_heap (f : list ITemplateData -> list ITemplateData) (d : Dom) : Dom :=
  {| heap := f (heap d); listeners := listeners d;
     root_className := root_className d; searchBox_value := searchBox_value d;
     extensionsBox_height := extensionsBox_height d;
     extensionsBox_loading := extensionsBox_loading d;
     overlay_top := overlay_top d; overlay_height := overlay_height d |}.

Definition dom_listeners (f : list Listener -> list Listener) (d : Dom) : Dom :=
  {| heap := heap d; listeners := f (listeners d);
     root_className := root_className d; searchBox_value := searchBox_value d;
     extensionsBox_height := extensionsBox_height d;
     extensionsBox_loading := extensionsBox_loading d;
     overlay_top := overlay_top d; overlay_height := overlay_height d |}.

Definition dom_root (f : list string -> list string) (d : Dom) : Dom :=
  {| heap := heap d; listeners := listeners d;
     root_className := f (root_className d);
     searchBox_value := searchBox_value d;
     extensionsBox_height := extensionsBox_height d;
     extensionsBox_loading := extensionsBox_loading d;
     overlay_top := overlay_top d; overlay_height := overlay_height d |}.

Definition dom_searchBox (v : string) (d : Dom) : Dom :=
  {| heap := heap d; listeners := listeners d;
     root_className := root_className d; searchBox_value := v;
     extensionsBox_height := extensionsBox_height d;
     extensionsBox_loading := extensionsBox_loading d;
     overlay_top := overlay_top d; overlay_height := overlay_height d |}.

Definition dom_extensionsBox (h : option Css) (l : option bool) (d : Dom) : Dom :=
  {| heap := heap d; listeners := listeners d;
     root_className := root_className d; searchBox_value := searchBox_value d;
     extensionsBox_height := default (extensionsBox_height d) h;
     extensionsBox_loading := default (extensionsBox_loading d) l;
     overlay_top := overlay_top d; overlay_height := overlay_height d |}.

Definition dom_overlay (t h : option Css) (d : Dom) : Dom :=
  {| heap := heap d; listeners := listeners d;
     root_className := root_className d; searchBox_value := searchBox_value d;
     extensionsBox_height := extensionsBox_height d;
     extensionsBox_loading := extensionsBox_loading d;
     overlay_top := default (overlay_top d) t;
     overlay_height := default (overlay_height d) h |}.

Definition env_clock (v : Z) (e : Env) : Env :=
  {| clock := v; queries := queries e; fetches := fetches e;
     nextFetch := nextFetch e; nextListener := nextListener e |}.

Definition env_queries (f : list Query -> list Query) (e : Env) : Env :=
  {| clock := clock e; queries := f (queries e); fetches := fetches e;
     nextFetch := nextFetch e; nextListener := nextListener e |}.

Definition env_fetches (f : list Fetch -> list Fetch) (e : Env) : Env :=
  {| clock := clock e; queries := queries e; fetches := f (fetches e);
     nextFetch := nextFetch e; nextListener := nextListener e |}.

Definition env_nextFetch (v : nat) (e : Env) : Env :=
  {| clock := clock e; queries := queries e; fetches := fetches e;
     nextFetch := v; nextListener := nextListener e |}.

Definition env_nextListener (v : nat) (e : Env) : Env :=
  {| clock := clock e; queries := queries e; fetches := fetches e;
     nextFetch := nextFetch e; nextListener := v |}.

Definition tpl_set_parent (p : ElementRef) (t : ITemplateData) : ITemplateData :=
  {| tpl_extension := tpl_extension t; container_parent := p;
     element_loading := element_loading t; icon_display := icon_display t;
     icon_src := icon_src t; name_text := name_text t;
     version_text := version_text t; author_text := author_text t;
     description_text := description_text t; body_html := body_html t |}.

Definition tpl_set_body (h : string) (t : ITemplateData) : ITemplateData :=
  {| tpl_extension := tpl_extension t; container_parent := container_parent t;
     element_loading := element_loading t; icon_display := icon_display t;
     icon_src := icon_src t; name_text := name_text t;
     version_text := version_text t; author_text := author_text t;
     description_text := description_text t; body_html := h |}.

(** ** Listeners and disposables *)

Definition listen (l : Listener) (s : ExtensionsPart) : ExtensionsPart :=
  emit (AddListener l) (with_dom (dom_listeners (fun ls => ls ++ [l])) s).

(** [dispose()] of what [addDisposableListener] returned: removes the
    listener if it is still there, does nothing otherwise. *)
Definition unlisten (l : Listener) (s : ExtensionsPart) : ExtensionsPart :=
  if decide (l ∈ listeners (dom s))
  then emit (RemoveListener l)
         (with_dom (dom_listeners (filter (fun x => x <> l))) s)
  else s.

(** [d.dispose()].  The third case is the closure of lines 312-317. *)
Definition dispose_one (d : IDisposable) (s : ExtensionsPart) : ExtensionsPart :=
  match d with
  | empty => s
  | listenerDisposable l => unlisten l s
  | highlightTeardown l container data =>
      let s := unlisten l s in
      let s := emit (AppendChild container data)
                 (with_dom (dom_heap (alter (tpl_set_parent container) data)) s) in
      let s := with_dom (dom_overlay None (Some Zero)) s in
      emit (SetBody data "") (with_dom (dom_heap (alter (tpl_set_body "") data)) s)
  end.

(** ** Renderer (lines 71-137) *)

Definition renderTemplate (root : nat) (s : ExtensionsPart) : Outcome :=
  let result :=
    {| tpl_extension := None; container_parent := Row root;
       element_loading := false; icon_display := ""; icon_src := "";
       name_text := ""; version_text := ""; author_text := "";
       description_text := ""; body_html := "" |} in
  let ref := length (heap (dom s)) in
  Done (set_templates (templates s ++ [ref])
          (with_dom (dom_heap (fun h => h ++ [result])) s)).

Definition renderPlaceholder (index : Z) (data : nat) (s : ExtensionsPart) : Outcome :=
  Done (with_dom (dom_heap (alter (fun t =>
    {| tpl_extension := None; container_parent := container_parent t;
       element_loading := true; icon_display := "none"; icon_src := icon_src t;
       name_text := ""; version_text := ""; author_text := "";
       description_text := ""; body_html := "" |}) data)) s).

Definition renderElement (entry : IExtensionEntry) (index : Z) (data : nat)
    (s : ExtensionsPart) : Outcome :=
  let extension := extension entry in
  let publisher :=
    match galleryInformation extension with
    | Some gi => publisherDisplayName gi
    | None => publisher extension
    end in
  match galleryInformation extension with
  | None => Threw s                                             (* line 117 *)
  | Some gi =>
      match versions gi with
      | [] =>                                                   (* line 122 *)
          Threw (with_dom (dom_heap (alter (fun t =>
            {| tpl_extension := Some extension;
               container_parent := container_parent t;
               element_loading := false; icon_display := "block";
               icon_src := icon_src t; name_text := name_text t;
               version_text := version_text t; author_text := author_text t;
               description_text := description_text t;
               body_html := body_html t |}) data)) s)
      | version0 :: _ =>
          Done (with_dom (dom_heap (alter (fun t =>
            {| tpl_extension := Some extension;
               container_parent := container_parent t;
               element_loading := false; icon_display := "block";
               icon_src := iconUrl version0;
               name_text := displayName extension;
               version_text := " " +:+ version extension;
               author_text := " by " +:+ publisher;
               description_text := description extension;
               body_html := "" |}) data)) s)
      end
  end.

Fixpoint remove_first (x : nat) (l : list nat) : list nat :=
  match l with
  | [] => []
  | y :: l' => if Nat.eqb x y then l' else y :: remove_first x l'
  end.

Definition disposeTemplate (data : nat) (s : ExtensionsPart) : Outcome :=
  Done (set_templates (remove_first data (templates s)) s).

(** ** ExtensionsPart (lines 146-342) *)

(** The constructor, lines 162-173. *)
Definition constructed : ExtensionsPart :=
  {| dom := {| heap := []; listeners := []; root_className := [];
               searchBox_value := ""; extensionsBox_height := Unset;
               extensionsBox_loading := false; overlay_top := Unset;
               overlay_height := Unset |};
     env := {| clock := 0; queries := []; fetches := []; nextFetch := 0;
               nextListener := 0 |};
     templates := [];
     list_model := EmptyModel;
     searchDelayer := {| timer := None; calls := 0 |};
     _highlight := None;
     highlightDisposable := empty;
     toDispose := [];
     log := [] |}.

(** [createEditor], lines 175-220: the root is made with its class (line
    177); of the three handlers only the click listener goes into
    [toDispose]. *)
Definition createEditor (s : ExtensionsPart) : ExtensionsPart :=
  let s := with_dom (dom_root (fun _ => ["extension-manager"])) s in
  let s := listen RootClick s in
  let s := set_toDispose (toDispose s ++ [listenerDisposable RootClick]) s in
  let s := listen SearchInput s in
  listen SelectionChange s.

(** The [highlight] setter, lines 266-318.  Lines 278-283 place the overlay
    on the row and force a reflow; the two style fields are written again at
    286-287 within the same call. *)
Definition set_highlight (data : option nat) (s : ExtensionsPart) : Outcome :=
  let s := set__highlight data s in
  match data with
  | None =>
      let s := with_dom (dom_root collapse_classes) s in
      let s := dispose_one (highlightDisposable s) s in
      Done (set_highlightDisposable empty s)
  | Some d =>
      match heap (dom s) !! d with
      | None => Threw s
      | Some tpl =>
          let s := with_dom (dom_root expand_classes) s in
          let s := with_dom (dom_overlay (Some Zero)
                               (Some (extensionsBox_height (dom s)))) s in
          let container := container_parent tpl in
          let s := emit (AppendChild OverlayEl d)
                     (with_dom (dom_heap (alter (tpl_set_parent OverlayEl) d)) s) in
          let listener := TransitionEnd (nextListener (env s)) in
          let s := listen listener
                     (with_env (env_nextListener (S (nextListener (env s)))) s) in
          match tpl_extension tpl with
          | None => Threw s                                     (* line 301 *)
          | Some ext =>
              match galleryInformation ext with
              | None => Threw s                                 (* line 301 *)
              | Some gi =>
                  match versions gi with
                  | [] => Threw s                               (* line 302 *)
                  | version0 :: _ =>
                      let f := {| fetch_id := nextFetch (env s);
                                  fetch_data := d;
                                  fetch_url := readmeUrl version0;
                                  fetch_headers := downloadHeaders version0 |} in
                      let s := with_env (env_fetches (fun fs => fs ++ [f])) s in
                      let s := with_env (env_nextFetch (S (nextFetch (env s)))) s in
                      Done (set_highlightDisposable
                              (highlightTeardown listener container d) s)
                  end
              end
          end
      end
  end.

(** The callback of [list.onSelectionChange], lines 198-219; [torn_down] is
    its first statement, lines 199-203. *)
Definition torn_down (s : ExtensionsPart) : ExtensionsPart :=
  let s := with_dom (dom_root deselect_classes) s in
  let s := dispose_one (highlightDisposable s) s in
  set_highlightDisposable empty s.

Definition onSelectionChange (elements : list IExtensionEntry)
    (s : ExtensionsPart) : Outcome :=
  let s := torn_down s in
  match elements with
  | [] => Done s
  | selected :: _ =>
      let id := getExtensionId (extension selected) in
      match List.filter (fun t =>
               match heap (dom s) !! t with
               | Some tpl =>
                   match tpl_extension tpl with
                   | Some e => String.eqb (getExtensionId e) id
                   | None => false
                   end
               | None => false
               end) (templates s) with
      | [] => Done s
      | data :: _ => set_highlight (Some data) s
      end
  end.

(** The click listener on the root, lines 179-183. *)
Definition onRootClick (target_is_root : bool) (s : ExtensionsPart) : Outcome :=
  if target_is_root && bool_decide (is_Some (_highlight s))
  then set_highlight None s
  else Done s.

(** The [transitionend] callback of one highlight, lines 294-299. *)
Definition onTransitionEnd (l : Listener) (s : ExtensionsPart) : ExtensionsPart :=
  with_dom (dom_root settled_classes) (unlisten l s).

Definition is_transitionend (l : Listener) : bool :=
  match l with TransitionEnd _ => true | _ => false end.

(** [doSearch], lines 256-260: the query is issued now, its two
    continuations run in [querySettled]. *)
Definition doSearch (c : nat) (txt : string) (s : ExtensionsPart) : ExtensionsPart :=
  let q := {| query_call := c; query_text := txt |} in
  emit (GalleryQuery q) (with_env (env_queries (fun qs => qs ++ [q])) s).

Definition toEntry (extension : IExtension) : IExtensionEntry :=
  {| extension := extension; state := Installed |}.

Definition searchModel (result : IPager IExtension) : PagedModel IExtensionEntry :=
  {| pager := mapPager result toEntry |}.

(** [triggerSearch], lines 246-254. *)
Definition triggerSearch (txt : string) (delay : Z) (s : ExtensionsPart) : Outcome :=
  andThen (set_highlight None s) (fun s =>
    let s := set_list_model EmptyModel s in
    let s := set_searchDelayer
               (trigger (searchDelayer s) (clock (env s)) txt delay) s in
    Done (with_dom (dom_extensionsBox None (Some true)) s)).

(** [setVisible], lines 222-230, once the base class's promise resolved. *)
Definition setVisible (visible : bool) (s : ExtensionsPart) : Outcome :=
  if visible
  then andThen (set_highlight None s) (fun s =>
         triggerSearch "" 0 (with_dom (dom_searchBox "") s))
  else Done s.

(** [layout], lines 232-240. *)
Definition layout (height : Z) (s : ExtensionsPart) : Outcome :=
  let height := height - 72 in
  let s := with_dom (dom_extensionsBox
                       (Some (set_height height (extensionsBox_height (dom s))))
                       None) s in
  Done (if bool_decide (is_Some (_highlight s))
        then with_dom (dom_overlay None (Some (extensionsBox_height (dom s)))) s
        else s).

(** [dispose], lines 337-341. *)
Definition dispose (s : ExtensionsPart) : Outcome :=
  let s := set__highlight None s in
  let s := foldl (fun s d => dispose_one d s) s (toDispose s) in
  Done (set_toDispose [] s).

(** ** Settling pending work *)

(** The debounce timer: [ms] milliseconds pass, and a scheduled search whose
    time has come starts. *)
Definition elapse (ms : Z) (s : ExtensionsPart) : ExtensionsPart :=
  let s := with_env (env_clock (clock (env s) + ms)) s in
  match timer (searchDelayer s) with
  | Some p =>
      if deadline p <=? clock (env s)
      then doSearch (call p) (text p)
             (set_searchDelayer
                {| timer := None; calls := calls (searchDelayer s) |} s)
      else s
  | None => s
  end.

(** The gallery answers the query of call [c]: the two continuations of
    [doSearch] (lines 258-259) and the [always] of [triggerSearch]
    (line 253). *)
Definition querySettled (c : nat) (r : Settled (IPager IExtension))
    (s : ExtensionsPart) : Outcome :=
  match List.find (fun q => Nat.eqb (query_call q) c) (queries (env s)) with
  | None => Done s
  | Some _ =>
      let s := with_env (env_queries
                 (List.filter (fun q => negb (Nat.eqb (query_call q) c)))) s in
      let s := match r with
               | Fulfilled result => set_list_model (searchModel result) s
               | Rejected _ => s
               end in
      Done (with_dom (dom_extensionsBox None (Some false)) s)
  end.

(** [request], lines 322-335. *)
Definition request (u : string) (settings : Settled (string * bool))
    : Settled IRequestOptions :=
  then_ settings (fun st =>
    Fulfilled {| url := u;
                 agent := {| agent_url := u; agent_proxyUrl := fst st;
                             agent_strictSSL := snd st |};
                 strictSSL := snd st;
                 headers := None |}).

Definition assign_headers (opts : IRequestOptions) (h : list (string * string))
    : IRequestOptions :=
  {| url := url opts; agent := agent opts; strictSSL := strictSSL opts;
     headers := Some h |}.

(** The options handed to [downloadText], line 306. *)
Definition downloadOptions (f : Fetch) (r : FetchReply) : Settled IRequestOptions :=
  then_ (request (fetch_url f) (reply_settings r))
    (fun opts => Fulfilled (assign_headers opts (fetch_headers f))).

(** The promise chain of lines 305-308, up to the html. *)
Definition readme (f : Fetch) (r : FetchReply) : Settled string :=
  then_ (then_ (downloadOptions f r) (reply_download r)) (reply_parse r).

(** The readme request [id] settles; line 309 runs on success.  No [then]
    of lines 305-309 has a second callback and the promise of the chain is
    dropped, so a rejection is handled nowhere in the component. *)
Definition fetchSettled (id : nat) (r : FetchReply) (s : ExtensionsPart) : Outcome :=
  match List.find (fun f => Nat.eqb (fetch_id f) id) (fetches (env s)) with
  | None => Done s
  | Some f =>
      let s := with_env (env_fetches
                 (List.filter (fun f => negb (Nat.eqb (fetch_id f) id)))) s in
      let s := match downloadOptions f r with
               | Fulfilled opts => emit (Download opts) s
               | Rejected _ => s
               end in
      match readme f r with
      | Fulfilled html =>
          Done (emit (SetBody (fetch_data f) html)
                  (with_dom (dom_heap (alter (tpl_set_body html) (fetch_data f))) s))
      | Rejected reason => Done (emit (UnhandledRejection reason) s)
      end
  end.

(** ** Events *)

Inductive Event :=
| RenderTemplate (root : nat)
| RenderPlaceholder (index : Z) (data : nat)
| RenderElement (entry : IExtensionEntry) (index : Z) (data : nat)
| DisposeTemplate (data : nat)
| Click (target_is_root : bool)
| Input (txt : string)
| Select (elements : list IExtensionEntry)
| TransitionEnds
| Elapse (ms : Z)
| QuerySettles (c : nat) (r : Settled (IPager IExtension))
| FetchSettles (id : nat) (r : FetchReply)
| SetVisible (visible : bool)
| Layout (height : Z)
| Dispose.

Definition step (e : Event) (s : ExtensionsPart) : Outcome :=
  match e with
  | RenderTemplate root => renderTemplate root s
  | RenderPlaceholder index data => renderPlaceholder index data s
  | RenderElement entry index data => renderElement entry index data s
  | DisposeTemplate data => disposeTemplate data s
  | Click target_is_root =>
      if decide (RootClick ∈ listeners (dom s))
      then onRootClick target_is_root s else Done s
  | Input txt =>
      if decide (SearchInput ∈ listeners (dom s))
      then triggerSearch txt 500 (with_dom (dom_searchBox txt) s) else Done s
  | Select elements =>
      if decide (SelectionChange ∈ listeners (dom s))
      then onSelectionChange elements s else Done s
  | TransitionEnds =>
      Done (foldl (fun s l => onTransitionEnd l s) s
              (List.filter is_transitionend (listeners (dom s))))
  | Elapse ms => Done (elapse ms s)
  | QuerySettles c r => querySettled c r s
  | FetchSettles id r => fetchSettled id r s
  | SetVisible visible => setVisible visible s
  | Layout height => layout height s
  | Dispose => dispose s
  end.

(** An exception ends the handler, not the component: the next event finds
    the state as the handler left it. *)
Definition exec (s : ExtensionsPart) (es : list Event) : ExtensionsPart :=
  foldl (fun s e => resume (step e s)) s es.

Definition created : ExtensionsPart := createEditor constructed.

(** ** Observations *)

Definition parent_of (s : ExtensionsPart) (data : nat) : option ElementRef :=
  container_parent <$> heap (dom s) !! data.

Definition body_of (s : ExtensionsPart) (data : nat) : option string :=
  body_html <$> heap (dom s) !! data.

Definition in_overlay (s : ExtensionsPart) (data : nat) : Prop :=
  parent_of s data = Some OverlayEl.

Definition issued (l : list Effect) : list Query :=
  omap (fun e => match e with GalleryQuery q => Some q | _ => None end) l.

Definition restorations (l : list Effect) : list (ElementRef * nat) :=
  omap (fun e => match e with
                 | AppendChild (Row k) d => Some (Row k, d)
                 | _ => None
                 end) l.

Definition entries {A : Type} (m : PagedModel A) (e : A) : Prop :=
  In e (firstPage (pager m)) \/
  exists g i, getPage (pager m) = Some g /\ In e (g i).

(** ** Sample data *)

Definition sample_version : IGalleryVersion :=
  {| iconUrl := "https://gallery/icon-1.0.png";
     readmeUrl := "https://gallery/readme-1.0.md";
     downloadHeaders := [("X-Market-Client-Id", "VSCode")] |}.

Definition older_version : IGalleryVersion :=
  {| iconUrl := "https://gallery/icon-0.9.png";
     readmeUrl := "https://gallery/readme-0.9.md";
     downloadHeaders := [] |}.

Definition sample_extension : IExtension :=
  {| name := "ext"; publisher := "pub"; displayName := "Ext";
     version := "1.0"; description := "An extension";
     galleryInformation :=
       Some {| publisherDisplayName := "Pub";
               versions := [sample_version; older_version] |} |}.

Definition other_extension : IExtension :=
  {| name := "other"; publisher := "pub"; displayName := "Other";
     version := "2.1"; description := "Another extension";
     galleryInformation :=
       Some {| publisherDisplayName := "Pub";
               versions := [older_version] |} |}.

Definition sample_result : IPager IExtension :=
  {| firstPage := [sample_extension]; total := 2; pageSize := 1;
     getPage := Some (fun _ => [other_extension]) |}.

Definition readme_arrives (html : string) : FetchReply :=
  {| reply_settings := Fulfilled ("", true);
     reply_download := fun _ => Fulfilled "# Readme";
     reply_parse := fun _ => Fulfilled html |}.

Definition download_fails : FetchReply :=
  {| reply_settings := Fulfilled ("", true);
     reply_download := fun _ => Rejected "ECONNRESET";
     reply_parse := fun raw => Fulfilled raw |}.

(** Two rows rendered, the first bound to [sample_extension], the second to
    [other_extension]. *)
Definition two_rows : list Event :=
  [RenderTemplate 0; RenderTemplate 1;
   RenderElement (toEntry sample_extension) 0 0%nat;
   RenderElement (toEntry other_extension) 1 1%nat].

Definition sample_highlighted : ExtensionsPart :=
  exec created (two_rows ++ [Select [toEntry sample_extension]]).

Definition disposed_listener (d : IDisposable) : option Listener :=
  match d with
  | empty => None
  | listenerDisposable l => Some l
  | highlightTeardown l _ _ => Some l
  end.




(** A burst of [triggerSearch] calls with the default delay, each [gap] ms
    after the one before. *)
Fixpoint searches (more : list (Z * string)) (s : ExtensionsPart) : ExtensionsPart :=
  match more with
  | [] => s
  | (gap, txt) :: more' =>
      searches more' (resume (triggerSearch txt 500 (elapse gap s)))
  end.

Definition last_text (first : string) (more : list (Z * string)) : string :=
  List.last (map snd more) first.

Definition wf_extension (e : IExtension) : Prop :=
  exists gi v rest, galleryInformation e = Some gi /\ versions gi = v :: rest.

Definition wf_event (ev : Event) : Prop :=
  match ev with
  | RenderElement entry _ _ => wf_extension (extension entry)
  | _ => True
  end.

(** The highlight invariant over the three parts of the state it concerns:
    every bound extension has a first version; the containers under the
    overlay are exactly the one the highlight disposable will put back, to a
    row; [toDispose] holds no highlight teardown. *)
Definition single_of (h : list ITemplateData) (hd : IDisposable)
    (td : list IDisposable) : Prop :=
  (forall t tpl e, h !! t = Some tpl -> tpl_extension tpl = Some e ->
     wf_extension e) /\
  match hd with
  | empty => forall t tpl, h !! t = Some tpl -> container_parent tpl <> OverlayEl
  | listenerDisposable _ => False
  | highlightTeardown l c x =>
      c <> OverlayEl /\
      (exists tpl, h !! x = Some tpl /\ container_parent tpl = OverlayEl) /\
      forall t tpl, h !! t = Some tpl -> container_parent tpl = OverlayEl -> t = x
  end /\
  Forall (fun d => match d with highlightTeardown _ _ _ => False | _ => True end) td.

Definition single (s : ExtensionsPart) : Prop :=
  single_of (heap (dom s)) (highlightDisposable s) (toDispose s).

(** What the selection callback does when the highlight disposable holds the
    teardown of template [x], listener [l] and original parent [c]: after its
    first statement [x] is back under [c], its listener is gone, its body is
    empty and nothing is under the overlay; these effects come first in the
    log; then the callback returns, either at once or after expanding one
    template [y], which is then the only one under the overlay. *)
Definition tears_down_first (s : ExtensionsPart) (l : Listener) (c : ElementRef)
    (x : nat) (elements : list IExtensionEntry) : Prop :=
  in_overlay s x /\ c <> OverlayEl /\
  parent_of (torn_down s) x = Some c /\
  body_of (torn_down s) x = Some "" /\
  (l ∉ listeners (dom (torn_down s))) /\
  highlightDisposable (torn_down s) = empty /\
  (forall t, ~ in_overlay (torn_down s) t) /\
  (exists unl, (unl = [] \/ unl = [RemoveListener l]) /\
     log (torn_down s) = log s ++ unl ++ [AppendChild c x; SetBody x ""]) /\
  (onSelectionChange elements s = Done (torn_down s) \/
   exists y n s',
     onSelectionChange elements s = Done s' /\
     log s' = log (torn_down s) ++
              [AppendChild OverlayEl y; AddListener (TransitionEnd n)] /\
     _highlight s' = Some y /\
     forall t, in_overlay s' t <-> t = y).

(** Extensions the gallery could hand over without a first version. *)
Definition unlisted_extension : IExtension :=
  {| name := "local"; publisher := "me"; displayName := "Local";
     version := "0.1"; description := "Not in the gallery";
     galleryInformation := None |}.

Definition bare_extension : IExtension :=
  {| name := "bare"; publisher := "pub"; displayName := "Bare";
     version := "0.0"; description := "No version published";
     galleryInformation :=
       Some {| publisherDisplayName := "Pub"; versions := [] |} |}.

(** The template has nothing the setter can take a first version from. *)
Definition no_first_version (tpl : ITemplateData) : Prop :=
  match tpl_extension tpl with
  | None => True
  | Some e =>
      match galleryInformation e with
      | None => True
      | Some gi => versions gi = []
      end
  end.

(** Housekeeping that holds along a run: a registered [transitionend]
    listener is the one of the armed highlight; the click listener is
    registered only while its disposable is in [toDispose]; the renderer's
    templates are distinct references into the store. *)
Definition tidy (s : ExtensionsPart) : Prop :=
  (forall n, TransitionEnd n ∈ listeners (dom s) ->
     exists c x, highlightDisposable s = highlightTeardown (TransitionEnd n) c x) /\
  (RootClick ∈ listeners (dom s) ->
     In (listenerDisposable RootClick) (toDispose s)) /\
  NoDup (templates s) /\
  (forall t, In t (templates s) -> (t < length (heap (dom s)))%nat).

(** The test of line 212 on one template of the renderer. *)
Definition bound_to (s : ExtensionsPart) (id : string) (t : nat) : bool :=
  match heap (dom s) !! t with
  | Some tpl =>
      match tpl_extension tpl with
      | Some e => String.eqb (getExtensionId e) id
      | None => false
      end
  | None => false
  end.

(** The highlight disposable is [empty] or a teardown with a [transitionend]
    listener, [toDispose] holds nothing but the click listener's
    disposable, and the input and selection handlers are registered. *)
Definition handlers_kept (s : ExtensionsPart) : Prop :=
  match highlightDisposable s with
  | empty => True
  | listenerDisposable _ => False
  | highlightTeardown l _ _ => is_transitionend l = true
  end /\
  Forall (fun d => d = listenerDisposable RootClick) (toDispose s) /\
  SearchInput ∈ listeners (dom s) /\
  SelectionChange ∈ listeners (dom s).

(** The rows the list handed to [renderTemplate], in the order of the
    calls: the template made by the n-th call is the n-th of the store. *)
Definition rendered_rows (es : list Event) : list nat :=
  omap (fun e => match e with RenderTemplate k => Some k | _ => None end) es.

(** Every container hangs under the row its template was rendered for or
    under the overlay, and an armed teardown holds, as the parent to go back
    to, the place of its template's container before the expansion. *)
Definition placed (rows : list nat) (s : ExtensionsPart) : Prop :=
  length (heap (dom s)) = length rows /\
  (forall t tpl k, heap (dom s) !! t = Some tpl -> rows !! t = Some k ->
     container_parent tpl = Row k \/ container_parent tpl = OverlayEl) /\
  (forall l c x, highlightDisposable s = highlightTeardown l c x ->
     exists k, rows !! x = Some k /\ (c = Row k \/ c = OverlayEl)).

(** A version-less extension rendered into the first row and selected, then
    the second row selected. *)
Definition versionless_run : list Event :=
  [RenderTemplate 0; RenderTemplate 1;
   RenderElement (toEntry bare_extension) 0 0%nat;
   RenderElement (toEntry other_extension) 1 1%nat;
   Select [toEntry bare_extension];
   Select [toEntry other_extension]].

(** * Properties *)

(** Unfolds the field updates and the projections, down to records. *)
Ltac unfold_updates :=
  cbv [set_highlightDisposable set__highlight set_templates set_toDispose
       set_searchDelayer set_list_model with_dom with_env emit
       dom_root dom_heap dom_overlay dom_listeners dom_searchBox
       dom_extensionsBox default
       dom env templates list_model searchDelayer _highlight
       highlightDisposable toDispose log
       heap listeners root_className
       searchBox_value extensionsBox_height extensionsBox_loading
       overlay_top overlay_height].

(** ** Frame lemmas *)

Lemma issued_snoc (l : list Effect) (e : Effect) :
  issued (l ++ [e]) =
  issued l ++ match e with GalleryQuery q => [q] | _ => [] end.
Proof.
  unfold issued. rewrite omap_app. destruct e; simpl; auto using app_nil_r.
Qed.

Lemma restorations_snoc (l : list Effect) (e : Effect) :
  restorations (l ++ [e]) =
  restorations l ++ match e with
                    | AppendChild (Row k) d => [(Row k, d)]
                    | _ => []
                    end.
Proof.
  unfold restorations. rewrite omap_app.
  destruct e as [[k|] d| | | | | | |]; simpl; auto using app_nil_r.
Qed.

(** What disposing one disposable leaves alone. *)
Lemma dispose_one_frame (d : IDisposable) (s : ExtensionsPart) :
  env (dispose_one d s) = env s /\
  templates (dispose_one d s) = templates s /\
  list_model (dispose_one d s) = list_model s /\
  searchDelayer (dispose_one d s) = searchDelayer s /\
  _highlight (dispose_one d s) = _highlight s /\
  highlightDisposable (dispose_one d s) = highlightDisposable s /\
  toDispose (dispose_one d s) = toDispose s /\
  issued (log (dispose_one d s)) = issued (log s) /\
  searchBox_value (dom (dispose_one d s)) = searchBox_value (dom s) /\
  root_className (dom (dispose_one d s)) = root_className (dom s) /\
  extensionsBox_height (dom (dispose_one d s)) = extensionsBox_height (dom s).
Proof.
  destruct d; unfold dispose_one, unlisten; repeat case_decide; simpl;
    rewrite ?issued_snoc, ?app_nil_r; simpl; rewrite ?app_nil_r; tauto.
Qed.

(** The collapse branch of the setter always returns. *)
Lemma collapse_returns (s : ExtensionsPart) :
  set_highlight None s =
  Done (set_highlightDisposable empty
          (dispose_one (highlightDisposable s)
             (with_dom (dom_root collapse_classes)
                (set__highlight None s)))).
Proof. reflexivity. Qed.

Lemma collapse_frame (s : ExtensionsPart) :
  exists s', set_highlight None s = Done s' /\
    env s' = env s /\ templates s' = templates s /\
    list_model s' = list_model s /\ searchDelayer s' = searchDelayer s /\
    toDispose s' = toDispose s /\ issued (log s') = issued (log s) /\
    searchBox_value (dom s') = searchBox_value (dom s) /\
    _highlight s' = None /\ highlightDisposable s' = empty /\
    root_className (dom s') = collapse_classes (root_className (dom s)).
Proof.
  eexists. split; [apply collapse_returns|].
  set (s0 := with_dom _ (set__highlight None s)).
  destruct (dispose_one_frame (highlightDisposable s) s0)
    as (He & Ht & Hm & Hd & Hh & _ & Htd & Hi & Hsb & H1 & _).
  cbn [dom env templates list_model searchDelayer toDispose log _highlight
       highlightDisposable set_highlightDisposable].
  rewrite He, Ht, Hm, Hd, Hh, Htd, Hi, Hsb, H1.
  repeat (split; [reflexivity|]). reflexivity.
Qed.

(** ** Version selection *)

(** C9. When the extension carries at least one version, [renderElement]
    returns and shows the icon of the first version, and the highlight of a
    template bound to that extension returns and starts exactly one readme
    request, whose url and headers are those of the first version, also in
    the options handed to the download. *)
Theorem first_version_is_used (s : ExtensionsPart) (entry : IExtensionEntry)
    (index : Z) (data : nat) (tpl : ITemplateData) (ext : IExtension)
    (gi : IGalleryInformation) (v : IGalleryVersion)
    (rest : list IGalleryVersion) :
  galleryInformation ext = Some gi ->
  versions gi = v :: rest ->
  heap (dom s) !! data = Some tpl ->
  (extension entry = ext ->
     exists s', renderElement entry index data s = Done s' /\
       icon_src <$> heap (dom s') !! data = Some (iconUrl v)) /\
  (tpl_extension tpl = Some ext ->
     exists s' f, set_highlight (Some data) s = Done s' /\
       fetches (env s') = fetches (env s) ++ [f] /\
       fetch_data f = data /\
       fetch_url f = readmeUrl v /\
       fetch_headers f = downloadHeaders v /\
       forall r opts, downloadOptions f r = Fulfilled opts ->
         url opts = readmeUrl v /\ headers opts = Some (downloadHeaders v)).
Proof.
  intros Hgi Hv Hd. split.
  - intros <-. unfold renderElement. rewrite Hgi, Hv.
    eexists. split; [reflexivity|]. simpl.
    rewrite list_lookup_alter_eq, Hd. reflexivity.
  - intros He. unfold set_highlight. simpl. rewrite Hd, He, Hgi, Hv.
    eexists. eexists. split; [reflexivity|]. simpl.
    repeat (split; [reflexivity|]).
    intros r opts. unfold downloadOptions, request. simpl.
    destruct (reply_settings r); simpl; [|discriminate].
    intros [= <-]. simpl. auto.
Qed.

Lemma first_version_is_used_witness :
  icon_src <$> heap (dom (resume (renderElement (toEntry sample_extension) 0 0%nat
                                     (exec created [RenderTemplate 0])))) !! 0%nat
    = Some (iconUrl sample_version) /\
  fetch_url <$> last (fetches (env sample_highlighted))
    = Some (readmeUrl sample_version).
Proof.
  pose proof (first_version_is_used (exec created [RenderTemplate 0])
                (toEntry sample_extension) 0 0%nat _ sample_extension _
                sample_version [older_version]
                eq_refl eq_refl eq_refl) as [H _].
  destruct (H eq_refl) as (s' & E & Hs'). rewrite E. simpl.
  split; [exact Hs'|]. vm_compute. reflexivity.
Defined.

(** ** Search results *)

Lemma querySettled_installs (s : ExtensionsPart) (c : nat)
    (result : IPager IExtension) :
  In c (map query_call (queries (env s))) ->
  list_model (resume (querySettled c (Fulfilled result) s)) = searchModel result.
Proof.
  intros Hc. unfold querySettled.
  destruct (find _ _) eqn:Hf; [reflexivity|].
  exfalso. apply in_map_iff in Hc as (q & <- & Hq).
  eapply find_none in Hf; [|exact Hq]. simpl in Hf.
  rewrite Nat.eqb_refl in Hf. discriminate.
Qed.

(** C10. Every entry of the model that [doSearch] builds from a gallery
    result, on the first page or on any page loaded later, has state
    [Installed]; and that model is what a resolved query installs in the
    list. *)
Theorem search_entries_installed (result : IPager IExtension)
    (e : IExtensionEntry) :
  entries (searchModel result) e ->
  state e = Installed /\ state e <> Uninstalled /\ state e <> Outdated /\
  forall s c, In c (map query_call (queries (env s))) ->
    list_model (resume (querySettled c (Fulfilled result) s)) = searchModel result.
Proof.
  intros He.
  assert (Hst : state e = Installed).
  { destruct He as [H | (g & i & Hg & H)].
    - simpl in H. apply in_map_iff in H as (x & <- & _). reflexivity.
    - simpl in Hg. destruct (getPage result); [|discriminate].
      injection Hg as <-. apply in_map_iff in H as (x & <- & _). reflexivity. }
  rewrite Hst. repeat (split; [congruence|]).
  intros s c Hc. apply querySettled_installs, Hc.
Qed.

Lemma search_entries_installed_witness :
  entries (searchModel sample_result) (toEntry other_extension) /\
  state (toEntry other_extension) = Installed.
Proof.
  assert (H : entries (searchModel sample_result) (toEntry other_extension)).
  { right. eexists. exists 0%nat. split; [reflexivity|]. left. reflexivity. }
  split; [exact H|].
  exact (proj1 (search_entries_installed sample_result _ H)).
Defined.

(** ** The readme request *)

Lemma body_after_alter (h : list ITemplateData) (d : nat) (html : string) :
  is_Some (h !! d) ->
  body_html <$> alter (tpl_set_body html) d h !! d = Some html.
Proof.
  intros [t Ht]. rewrite list_lookup_alter_eq, Ht. reflexivity.
Qed.

(** C1, as the code has it. The teardown empties the body of the template it
    collapses, at the moment of the collapse; a readme that resolves is
    written to the body of the template its request was started for, with no
    look at the highlight state, which it leaves as it was. *)
Theorem readme_injected_regardless (s : ExtensionsPart) (id : nat)
    (r : FetchReply) (f : Fetch) (html : string) :
  List.find (fun f => Nat.eqb (fetch_id f) id) (fetches (env s)) = Some f ->
  readme f r = Fulfilled html ->
  is_Some (heap (dom s) !! fetch_data f) ->
  (exists s', fetchSettled id r s = Done s' /\
     body_of s' (fetch_data f) = Some html /\
     _highlight s' = _highlight s /\
     highlightDisposable s' = highlightDisposable s) /\
  (forall l c,
     body_of (dispose_one (highlightTeardown l c (fetch_data f)) s) (fetch_data f)
     = Some "").
Proof.
  intros Hf Hr Hd. split.
  - unfold fetchSettled. rewrite Hf, Hr. eexists. split; [reflexivity|].
    split.
    + unfold body_of. simpl. apply body_after_alter.
      destruct (downloadOptions f r); exact Hd.
    + destruct (downloadOptions f r); split; reflexivity.
  - intros l c. unfold body_of, dispose_one. simpl. apply body_after_alter.
    rewrite list_lookup_alter_eq. unfold unlisten. case_decide; simpl;
      destruct Hd as [t ->]; simpl; eauto.
Qed.

Lemma readme_injected_regardless_witness :
  let s := exec sample_highlighted [Click true] in
  _highlight s = None /\
  body_of (resume (fetchSettled 0 (readme_arrives "<h1>Ext</h1>") s)) 0
    = Some "<h1>Ext</h1>".
Proof.
  split; [reflexivity|].
  destruct (readme_injected_regardless (exec sample_highlighted [Click true])
              0 (readme_arrives "<h1>Ext</h1>")
              {| fetch_id := 0; fetch_data := 0;
                 fetch_url := readmeUrl sample_version;
                 fetch_headers := downloadHeaders sample_version |}
              "<h1>Ext</h1>" eq_refl eq_refl (mk_is_Some _ _ eq_refl))
    as [(s' & E & Hb & _) _].
  rewrite E. exact Hb.
Defined.

(** C1, as stated, fails: the row is collapsed by a click on the root, or
    left for another row, while its readme is on the way; when the readme
    arrives it is written into the body of the collapsed row. *)
Lemma stale_readme_not_discarded :
  let collapsed := exec sample_highlighted [Click true] in
  let moved_on := exec sample_highlighted [Select [toEntry other_extension]] in
  let arrives := FetchSettles 0 (readme_arrives "<h1>Ext</h1>") in
  (_highlight collapsed = None /\
   body_of collapsed 0 = Some "" /\
   body_of (exec collapsed [arrives]) 0 = Some "<h1>Ext</h1>") /\
  (_highlight moved_on = Some 1%nat /\
   body_of moved_on 0 = Some "" /\
   parent_of (exec moved_on [arrives]) 0 = Some (Row 0) /\
   body_of (exec moved_on [arrives]) 0 = Some "<h1>Ext</h1>").
Proof. vm_compute. repeat split; reflexivity. Qed.

(** C2, as the code has it. A readme request that fails at any stage ends in
    a handler that returns; the DOM (parents, bodies, classes, listeners,
    overlay), the highlight and its disposable are as before, so the overlay
    stays expanded and every body keeps the content it had. No callback of
    the component takes the rejection: it leaves the chain unhandled, after
    the download was attempted if the options could be built. *)
Theorem failed_readme_changes_nothing (s : ExtensionsPart) (id : nat)
    (r : FetchReply) (f : Fetch) (reason : string) :
  List.find (fun f => Nat.eqb (fetch_id f) id) (fetches (env s)) = Some f ->
  readme f r = Rejected reason ->
  exists s', fetchSettled id r s = Done s' /\
    dom s' = dom s /\
    _highlight s' = _highlight s /\
    highlightDisposable s' = highlightDisposable s /\
    list_model s' = list_model s /\
    (forall d, parent_of s' d = parent_of s d /\ body_of s' d = body_of s d) /\
    log s' = log s ++
             match downloadOptions f r with
             | Fulfilled opts => [Download opts]
             | Rejected _ => []
             end ++ [UnhandledRejection reason].
Proof.
  intros Hf Hr. unfold fetchSettled. rewrite Hf, Hr.
  eexists. split; [reflexivity|].
  destruct (downloadOptions f r); cbn; rewrite <- ?app_assoc;
    repeat split; reflexivity.
Qed.

Lemma failed_readme_changes_nothing_witness :
  let s' := resume (fetchSettled 0 download_fails sample_highlighted) in
  returns (fetchSettled 0 download_fails sample_highlighted) = true /\
  parent_of s' 0 = Some OverlayEl /\
  body_of s' 0 = Some "".
Proof.
  destruct (failed_readme_changes_nothing sample_highlighted 0 download_fails
              {| fetch_id := 0; fetch_data := 0;
                 fetch_url := readmeUrl sample_version;
                 fetch_headers := downloadHeaders sample_version |}
              "ECONNRESET" eq_refl eq_refl)
    as (s' & E & _ & _ & _ & _ & H & _).
  rewrite E. simpl. split; [reflexivity|].
  destruct (H 0%nat) as [-> ->]. split; reflexivity.
Defined.

(** C2, as stated, fails: a row is highlighted and left, its readme arrives
    late, the row is highlighted again and the second request fails; the
    overlay is expanded on a body that is not empty, and the rejection has
    left the component unhandled. *)
Lemma failed_readme_body_not_empty :
  let s := exec sample_highlighted
             [Select [];
              FetchSettles 0 (readme_arrives "<h1>Ext</h1>");
              Select [toEntry sample_extension];
              FetchSettles 1 download_fails] in
  parent_of s 0 = Some OverlayEl /\
  _highlight s = Some 0%nat /\
  fetches (env s) = [] /\
  body_of s 0 = Some "<h1>Ext</h1>" /\
  last (log s) = Some (UnhandledRejection "ECONNRESET").
Proof. vm_compute. repeat split; reflexivity. Qed.

(** ** Disposal *)

Lemma listeners_unlisten (l x : Listener) (s : ExtensionsPart) :
  x ∈ listeners (dom (unlisten l s)) <-> x ∈ listeners (dom s) /\ x <> l.
Proof.
  unfold unlisten. case_decide; simpl.
  - rewrite list_elem_of_filter. tauto.
  - split; [|tauto]. intros Hx. split; [exact Hx|]. congruence.
Qed.

Lemma listeners_dispose_one (d : IDisposable) (x : Listener) (s : ExtensionsPart) :
  x ∈ listeners (dom (dispose_one d s)) <->
  x ∈ listeners (dom s) /\ disposed_listener d <> Some x.
Proof.
  destruct d as [|l|l c data]; simpl.
  - split; [intros H; split; [exact H | discriminate] | tauto].
  - rewrite listeners_unlisten. split; intros [H1 H2]; split; congruence.
  - change (x ∈ listeners (dom (unlisten l s)) <->
            x ∈ listeners (dom s) /\ Some l <> Some x).
    rewrite listeners_unlisten. split; intros [H1 H2]; split; congruence.
Qed.

Lemma dispose_all_frame (ds : list IDisposable) (s : ExtensionsPart) :
  let s' := foldl (fun s d => dispose_one d s) s ds in
  env s' = env s /\ searchDelayer s' = searchDelayer s /\
  list_model s' = list_model s /\ _highlight s' = _highlight s /\
  issued (log s') = issued (log s) /\
  (forall x, x ∈ listeners (dom s') <->
     x ∈ listeners (dom s) /\ Forall (fun d => disposed_listener d <> Some x) ds).
Proof.
  revert s. induction ds as [|d ds IH]; intros s; simpl.
  - repeat (split; [reflexivity|]). intros x. split; [|tauto].
    intros H. split; [exact H | constructor].
  - destruct (IH (dispose_one d s)) as (He & Hd & Hm & Hh & Hi & Hl).
    destruct (dispose_one_frame d s)
      as (He' & _ & Hm' & Hd' & Hh' & _ & _ & Hi' & _).
    rewrite He, Hd, Hm, Hh, Hi, He', Hd', Hm', Hh', Hi'.
    repeat (split; [reflexivity|]).
    intros x. rewrite Hl, listeners_dispose_one, Forall_cons. tauto.
Qed.

(** C7, as the code has it. [dispose()] returns, drops the highlight
    reference, disposes what was put into [toDispose] and empties it: the
    click listener on the root is gone. The delayer with its scheduled
    search, the queries and the readme requests on the way are as before. *)
Theorem dispose_releases_toDispose (s : ExtensionsPart) :
  exists s', dispose s = Done s' /\
    _highlight s' = None /\
    toDispose s' = [] /\
    Forall (fun d => match disposed_listener d with
                     | Some l => l ∉ listeners (dom s')
                     | None => True
                     end) (toDispose s) /\
    searchDelayer s' = searchDelayer s /\
    env s' = env s /\
    list_model s' = list_model s /\
    issued (log s') = issued (log s).
Proof.
  unfold dispose. eexists. split; [reflexivity|]. simpl.
  destruct (dispose_all_frame (toDispose s) (set__highlight None s))
    as (He & Hd & Hm & Hh & Hi & Hl).
  simpl in *. rewrite He, Hd, Hm, Hh, Hi.
  repeat (split; [reflexivity|]).
  split; [|tauto].
  apply Forall_forall. intros d Hin.
  destruct (disposed_listener d) as [l|] eqn:Hdl; [|exact I].
  rewrite Hl. intros [_ Hall].
  rewrite Forall_forall in Hall. exact (Hall d Hin Hdl).
Qed.

Lemma dispose_releases_toDispose_witness :
  toDispose sample_highlighted = [listenerDisposable RootClick] /\
  RootClick ∉ listeners (dom (resume (dispose sample_highlighted))).
Proof.
  split; [reflexivity|].
  destruct (dispose_releases_toDispose sample_highlighted)
    as (s' & E & _ & _ & H & _).
  rewrite E. simpl.
  apply (Forall_inv H).
Defined.

(** C7, as stated, fails. With a row highlighted, [dispose()] leaves the
    [transitionend] listener and the selection and input handlers
    registered, the container under the overlay and the readme request on
    its way; with a search scheduled, the timer still fires after
    [dispose()] and the query is issued. *)
Lemma dispose_leaves_work_pending :
  let s := resume (dispose sample_highlighted) in
  let t := exec created [Input "foo"; Dispose; Elapse 500] in
  listeners (dom s) = [SearchInput; SelectionChange; TransitionEnd 0] /\
  parent_of s 0 = Some OverlayEl /\
  length (fetches (env s)) = 1%nat /\
  issued (log t) = [{| query_call := 0; query_text := "foo" |}].
Proof. vm_compute. repeat split; reflexivity. Qed.

(** ** The search machinery *)





Lemma onSelectionChange_unfold (elements : list IExtensionEntry) (s : ExtensionsPart) :
  onSelectionChange elements s = Done (torn_down s) \/
  exists data tpl e,
    heap (dom (torn_down s)) !! data = Some tpl /\
    tpl_extension tpl = Some e /\
    onSelectionChange elements s = set_highlight (Some data) (torn_down s).
Proof.
  unfold onSelectionChange.
  destruct elements as [|selected ?]; [left; reflexivity|].
  destruct (List.filter _ _) as [|data ?] eqn:Hf; [left; reflexivity|].
  right. exists data.
  assert (Hin : In data (List.filter
    (fun t => match heap (dom (torn_down s)) !! t with
              | Some tpl => match tpl_extension tpl with
                            | Some e => String.eqb (getExtensionId e)
                                          (getExtensionId (extension selected))
                            | None => false
                            end
              | None => false
              end) (templates (torn_down s)))) by (rewrite Hf; left; reflexivity).
  apply filter_In in Hin as [_ Hin].
  destruct (heap (dom (torn_down s)) !! data) as [tpl|]; [|discriminate].
  destruct (tpl_extension tpl) as [e|] eqn:He; [|discriminate].
  exists tpl, e. auto.
Qed.





(** [triggerSearch] returns; this is all it does to the search machinery,
    the model and the highlight. *)
Lemma triggerSearch_spec (txt : string) (delay : Z) (s : ExtensionsPart) :
  exists s', triggerSearch txt delay s = Done s' /\
    env s' = env s /\
    searchDelayer s' = trigger (searchDelayer s) (clock (env s)) txt delay /\
    issued (log s') = issued (log s) /\
    list_model s' = EmptyModel /\
    _highlight s' = None /\
    highlightDisposable s' = empty /\
    searchBox_value (dom s') = searchBox_value (dom s).
Proof.
  unfold triggerSearch.
  destruct (collapse_frame s)
    as (s1 & E & He & _ & _ & Hd & _ & Hi & Hsb & Hh & Hhd & _).
  rewrite E. simpl. eexists. split; [reflexivity|]. simpl.
  rewrite issued_snoc, app_nil_r, He, Hd, Hi, Hsb. tauto.
Qed.









Lemma exec_snoc (s : ExtensionsPart) (es : list Event) (e : Event) :
  exec s (es ++ [e]) = resume (step e (exec s es)).
Proof. unfold exec. rewrite foldl_app. reflexivity. Qed.



(** ** Stale searches *)





(** ** Debounce *)

Lemma last_cons_default {A : Type} (l : list A) (a d : A) :
  List.last (a :: l) d = List.last l a.
Proof.
  revert a d. induction l as [|b l IH]; intros a d; [reflexivity|].
  change (List.last (a :: b :: l) d) with (List.last (b :: l) d).
  rewrite (IH b d), (IH b a). reflexivity.
Qed.

Lemma searches_pending (more : list (Z * string)) :
  forall (s : ExtensionsPart) (p : Pending),
    timer (searchDelayer s) = Some p ->
    deadline p = clock (env s) + 500 ->
    calls (searchDelayer s) = S (call p) ->
    Forall (fun gt => fst gt < 500) more ->
    queries (env (searches more s)) = queries (env s) /\
    issued (log (searches more s)) = issued (log s) /\
    exists p', timer (searchDelayer (searches more s)) = Some p' /\
      deadline p' = clock (env (searches more s)) + 500 /\
      call p' = (call p + length more)%nat /\
      text p' = last_text (text p) more.
Proof.
  induction more as [|[gap txt] more IH]; intros s p Hp Hdl Hc Hgaps;
    cbn [searches].
  - repeat (split; [reflexivity|]). exists p.
    simpl. rewrite Nat.add_0_r. auto.
  - apply Forall_cons in Hgaps as [Hgap Hgaps]. simpl in Hgap.
    assert (Hel : elapse gap s = with_env (env_clock (clock (env s) + gap)) s).
    { unfold elapse. simpl. rewrite Hp.
      replace (deadline p <=? clock (env s) + gap) with false; [reflexivity|].
      symmetry. apply Z.leb_gt. lia. }
    rewrite Hel.
    destruct (triggerSearch_spec txt 500
                (with_env (env_clock (clock (env s) + gap)) s))
      as (s' & E & He & Hd & Hi & _).
    rewrite E. cbn [resume]. simpl in He, Hd.
    destruct (IH s' {| deadline := clock (env s) + gap + 500;
                       call := calls (searchDelayer s); text := txt |})
      as (Hq & Hiss & p' & Hp' & Hdl' & Hc' & Ht'); auto.
    + rewrite Hd. reflexivity.
    + rewrite He. reflexivity.
    + rewrite Hd. reflexivity.
    + rewrite Hq, Hiss, He, Hi. repeat (split; [reflexivity|]).
      exists p'. repeat (split; [assumption|]). simpl in *. split; [lia|].
      rewrite Ht'. unfold last_text. simpl map.
      symmetry. apply last_cons_default.
Qed.

(** C6. A burst of [triggerSearch] calls with the default delay, each less
    than 500 ms after the one before, then 500 ms or more of quiet: the
    gallery is queried exactly once more than before, for the last call
    and with its text, and nothing is left scheduled. *)
Theorem debounce_coalesces (s : ExtensionsPart) (first : string)
    (more : list (Z * string)) (quiet : Z) :
  Forall (fun gt => fst gt < 500) more ->
  500 <= quiet ->
  let s' := elapse quiet (searches more (resume (triggerSearch first 500 s))) in
  let q := {| query_call := (calls (searchDelayer s) + length more)%nat;
              query_text := last_text first more |} in
  issued (log s') = issued (log s) ++ [q] /\
  queries (env s') = queries (env s) ++ [q] /\
  timer (searchDelayer s') = None.
Proof.
  intros Hgaps Hquiet.
  destruct (triggerSearch_spec first 500 s) as (s1 & E & He & Hd & Hi & _).
  rewrite E. simpl resume.
  destruct (searches_pending more s1
              {| deadline := clock (env s) + 500;
                 call := calls (searchDelayer s); text := first |})
    as (Hq & Hiss & p' & Hp' & Hdl' & Hc' & Ht'); auto.
  - rewrite Hd. reflexivity.
  - rewrite He. reflexivity.
  - rewrite Hd. reflexivity.
  - simpl in Hc', Ht'. unfold elapse. simpl. rewrite Hp'.
    replace (deadline p' <=? clock (env (searches more s1)) + quiet) with true
      by (symmetry; apply Z.leb_le; lia).
    unfold doSearch. simpl. rewrite issued_snoc, Hiss, Hi, Hq, He, Hc', Ht'.
    auto.
Qed.

Lemma debounce_coalesces_witness :
  let s' := elapse 500 (searches [(100, "foobar")]
                          (resume (triggerSearch "foo" 500 created))) in
  Forall (fun gt => fst gt < 500) [(100, "foobar")] /\
  issued (log s') = [{| query_call := 1; query_text := "foobar" |}].
Proof.
  assert (H : Forall (fun gt : Z * string => fst gt < 500) [(100, "foobar")]).
  { repeat constructor. }
  split; [exact H|].
  exact (proj1 (debounce_coalesces created "foo" [(100, "foobar")] 500 H
                  ltac:(lia))).
Defined.

(** ** The single highlight *)

Lemma alter_lookup_inv (f : ITemplateData -> ITemplateData) (d t : nat)
    (h : list ITemplateData) (tpl' : ITemplateData) :
  alter f d h !! t = Some tpl' ->
  exists tpl, h !! t = Some tpl /\
    ((t = d /\ tpl' = f tpl) \/ (t <> d /\ tpl' = tpl)).
Proof.
  rewrite list_lookup_alter. case_decide as Hd.
  - subst t. destruct (h !! d) as [tpl|]; simpl; [|discriminate]. intros [= <-].
    exists tpl. auto.
  - intros H. exists tpl'. split; [exact H|]. right. split; congruence.
Qed.

(** Rewriting a template without moving its container and without binding
    an extension that has no version keeps the invariant. *)
Lemma single_of_alter (f : ITemplateData -> ITemplateData) (d : nat)
    (h : list ITemplateData) (hd : IDisposable) (td : list IDisposable) :
  (forall t, container_parent (f t) = container_parent t) ->
  (forall t e, tpl_extension (f t) = Some e ->
     tpl_extension t = Some e \/ wf_extension e) ->
  single_of h hd td -> single_of (alter f d h) hd td.
Proof.
  intros Hpar Hext (Hwf & Hhd & Htd). split; [|split; [|exact Htd]].
  - intros t tpl' e Ht He.
    apply alter_lookup_inv in Ht as (tpl & Ht & [[-> ->] | [_ ->]]).
    + destruct (Hext tpl e He) as [He' | Hw]; [eapply Hwf; eauto | exact Hw].
    + eapply Hwf; eauto.
  - destruct hd as [|l|l c x]; [| exact Hhd |].
    + intros t tpl' Ht.
      apply alter_lookup_inv in Ht as (tpl & Ht & [[-> ->] | [_ ->]]);
        rewrite ?Hpar; eapply Hhd; eauto.
    + destruct Hhd as (Hc & (tplx & Hx & Hpx) & Honly).
      split; [exact Hc|]. split.
      * rewrite list_lookup_alter. case_decide as Hdx.
        -- subst d. rewrite Hx. simpl.
           eexists. split; [reflexivity|]. rewrite Hpar. exact Hpx.
        -- eexists. split; [exact Hx|]. exact Hpx.
      * intros t tpl' Ht.
        apply alter_lookup_inv in Ht as (tpl & Ht & [[-> ->] | [_ ->]]);
          rewrite ?Hpar; eapply Honly; eauto.
Qed.

Lemma heap_dispose_one (d : IDisposable) (s : ExtensionsPart) :
  heap (dom (dispose_one d s)) =
  match d with
  | highlightTeardown _ c x =>
      alter (tpl_set_body "") x (alter (tpl_set_parent c) x (heap (dom s)))
  | _ => heap (dom s)
  end.
Proof.
  destruct d; unfold dispose_one, unlisten; repeat case_decide; reflexivity.
Qed.

Lemma log_dispose_one (d : IDisposable) (s : ExtensionsPart) :
  log (dispose_one d s) =
  log s ++
  match disposed_listener d with
  | Some l => if decide (l ∈ listeners (dom s)) then [RemoveListener l] else []
  | None => []
  end ++
  match d with
  | highlightTeardown _ c x => [AppendChild c x; SetBody x ""]
  | _ => []
  end.
Proof.
  destruct d; unfold dispose_one, unlisten; simpl; repeat case_decide; simpl;
    rewrite <- ?app_assoc, ?app_nil_r; reflexivity.
Qed.

(** Running the highlight disposable and resetting it leaves no container
    under the overlay. *)
Lemma single_of_teardown (h : list ITemplateData) (hd : IDisposable)
    (td : list IDisposable) :
  single_of h hd td ->
  single_of
    match hd with
    | highlightTeardown _ c x =>
        alter (tpl_set_body "") x (alter (tpl_set_parent c) x h)
    | _ => h
    end empty td.
Proof.
  intros Hs. destruct hd as [|l|l c x]; [exact Hs | destruct Hs as (_ & [] & _) |].
  destruct Hs as (Hwf & (Hc & _ & Honly) & Htd).
  split; [|split; [|exact Htd]].
  - intros t tpl' e Ht He.
    apply alter_lookup_inv in Ht as (tpl1 & Ht & H1).
    apply alter_lookup_inv in Ht as (tpl & Ht & H2).
    apply (Hwf t tpl e Ht).
    destruct H1 as [[_ ->] | [_ ->]], H2 as [[_ ->] | [_ ->]]; exact He.
  - intros t tpl' Ht.
    apply alter_lookup_inv in Ht as (tpl1 & Ht & H1).
    apply alter_lookup_inv in Ht as (tpl & Ht & H2).
    destruct H1 as [[Hx ->] | [Hx ->]], H2 as [[Hx' ->] | [Hx' ->]];
      simpl; try congruence.
    intros Hp. apply Hx. eapply Honly; eauto.
Qed.

Lemma single_collapse (s : ExtensionsPart) :
  single s -> single (resume (set_highlight None s)).
Proof.
  intros Hs. rewrite collapse_returns. unfold single. cbn [resume].
  change (heap (dom (set_highlightDisposable empty ?x))) with (heap (dom x)).
  rewrite heap_dispose_one.
  destruct (dispose_one_frame (highlightDisposable s)
              (with_dom (dom_root collapse_classes)
                 (set__highlight None s)))
    as (_ & _ & _ & _ & _ & _ & Htd & _).
  change (toDispose (set_highlightDisposable empty ?x)) with (toDispose x).
  rewrite Htd. apply (single_of_teardown _ _ _ Hs).
Qed.

Lemma single_torn_down (s : ExtensionsPart) :
  single s -> single (torn_down s) /\ highlightDisposable (torn_down s) = empty.
Proof.
  intros Hs. split; [|reflexivity]. unfold single, torn_down.
  change (heap (dom (set_highlightDisposable empty ?x))) with (heap (dom x)).
  cbv zeta. rewrite heap_dispose_one.
  destruct (dispose_one_frame
              (highlightDisposable (with_dom (dom_root deselect_classes) s))
              (with_dom (dom_root deselect_classes) s))
    as (_ & _ & _ & _ & _ & _ & Htd & _).
  change (toDispose (set_highlightDisposable empty ?x)) with (toDispose x).
  rewrite Htd. apply (single_of_teardown _ _ _ Hs).
Qed.

(** The expansion branch of the setter, started with nothing highlighted on
    a template bound to an extension with a first version. *)
Lemma expand_spec (s : ExtensionsPart) (d : nat) (tpl : ITemplateData)
    (e : IExtension) :
  single s -> highlightDisposable s = empty ->
  heap (dom s) !! d = Some tpl -> tpl_extension tpl = Some e ->
  exists s', set_highlight (Some d) s = Done s' /\
    heap (dom s') = alter (tpl_set_parent OverlayEl) d (heap (dom s)) /\
    highlightDisposable s' =
      highlightTeardown (TransitionEnd (nextListener (env s)))
        (container_parent tpl) d /\
    toDispose s' = toDispose s /\
    _highlight s' = Some d /\
    log s' = log s ++ [AppendChild OverlayEl d;
                       AddListener (TransitionEnd (nextListener (env s)))] /\
    single s'.
Proof.
  intros Hs Hhd Hd He.
  assert (Hw : wf_extension e) by (destruct Hs as (Hwf & _); eapply Hwf; eauto).
  destruct Hw as (gi & v & rest & Hgi & Hv).
  destruct s as [[hp ls rc sb bh bl ot oh] [ck qs fs nf nl]
                   ts m dl hl hd td lg].
  unfold single in *. cbn in Hs, Hhd, Hd. subst hd.
  destruct Hs as (Hwf & Hemp & Htd).
  unfold set_highlight, listen. unfold_updates. cbn [env nextListener].
  rewrite Hd, He, Hgi, Hv.
  eexists. split; [reflexivity|]. cbn.
  repeat (split; [reflexivity|]).
  split; [rewrite <- app_assoc; reflexivity|].
  split; [|split; [|exact Htd]].
  - intros t tpl' e' Ht He'.
    apply alter_lookup_inv in Ht as (tpl0 & Ht & [[_ ->] | [_ ->]]);
      eapply Hwf; eauto.
  - split; [eapply Hemp; eauto|]. split.
    + rewrite list_lookup_alter_eq, Hd. eexists. split; reflexivity.
    + intros t tpl' Ht Hp.
      apply alter_lookup_inv in Ht as (tpl0 & Ht & [[Heq _] | [_ ->]]);
        [exact Heq|]. exfalso. eapply Hemp; eauto.
Qed.

Lemma single_of_snoc (h : list ITemplateData) (hd : IDisposable)
    (td : list IDisposable) (t : ITemplateData) :
  container_parent t <> OverlayEl -> tpl_extension t = None ->
  single_of h hd td -> single_of (h ++ [t]) hd td.
Proof.
  intros Hp He (Hwf & Hhd & Htd).
  assert (Hnew : forall i x, (h ++ [t]) !! i = Some x -> h !! i = Some x \/ x = t).
  { intros i x Hi. apply lookup_app_Some in Hi as [Hi | [_ Hi]]; [auto|].
    right. destruct (i - length h)%nat; simpl in Hi; [congruence | discriminate]. }
  split; [|split; [|exact Htd]].
  - intros i x e Hi Hx. destruct (Hnew i x Hi) as [Hi' | ->];
      [eapply Hwf; eauto | congruence].
  - destruct hd as [|l|l c x]; [| exact Hhd |].
    + intros i y Hi. destruct (Hnew i y Hi) as [Hi' | ->];
        [eapply Hhd; eauto | exact Hp].
    + destruct Hhd as (Hc & (tplx & Hx & Hpx) & Honly).
      split; [exact Hc|]. split.
      * exists tplx. split; [|exact Hpx]. apply lookup_app_l_Some, Hx.
      * intros i y Hi Hy. destruct (Hnew i y Hi) as [Hi' | ->];
          [eapply Honly; eauto | contradiction].
Qed.

Lemma transitions_frame (ls : list Listener) (s : ExtensionsPart) :
  let s' := foldl (fun s l => onTransitionEnd l s) s ls in
  heap (dom s') = heap (dom s) /\
  highlightDisposable s' = highlightDisposable s /\
  toDispose s' = toDispose s /\ _highlight s' = _highlight s.
Proof.
  revert s. induction ls as [|l ls IH]; intros s; simpl; [auto|].
  destruct (IH (onTransitionEnd l s)) as (H1 & H2 & H3 & H4).
  rewrite H1, H2, H3, H4. unfold onTransitionEnd, unlisten.
  case_decide; auto.
Qed.

Lemma dispose_all_heap (ds : list IDisposable) (s : ExtensionsPart) :
  Forall (fun d => match d with highlightTeardown _ _ _ => False | _ => True end) ds ->
  heap (dom (foldl (fun s d => dispose_one d s) s ds)) = heap (dom s) /\
  highlightDisposable (foldl (fun s d => dispose_one d s) s ds) = highlightDisposable s.
Proof.
  revert s. induction ds as [|d ds IH]; intros s Hds; simpl; [auto|].
  apply Forall_cons in Hds as [Hd Hds].
  destruct (IH (dispose_one d s) Hds) as [-> ->].
  rewrite heap_dispose_one.
  destruct (dispose_one_frame d s) as (_ & _ & _ & _ & _ & -> & _).
  destruct d; [auto | auto | contradiction].
Qed.

Lemma single_triggerSearch (txt : string) (delay : Z) (s : ExtensionsPart) :
  single s -> single (resume (triggerSearch txt delay s)).
Proof.
  intros Hs. unfold triggerSearch. rewrite collapse_returns. cbn [andThen resume].
  apply single_collapse in Hs. rewrite collapse_returns in Hs. exact Hs.
Qed.

(** Every event of a run in which the list renders only extensions that
    carry a version keeps the invariant. *)
Lemma step_single (e : Event) (s : ExtensionsPart) :
  wf_event e -> single s -> single (resume (step e s)).
Proof.
  intros Hwf Hs. destruct e; cbn [step].
  - apply single_of_snoc; [discriminate | reflexivity | exact Hs].
  - apply single_of_alter; [reflexivity | discriminate | exact Hs].
  - destruct Hwf as (gi & v & rest & Hgi & Hv). unfold renderElement.
    rewrite Hgi, Hv. apply single_of_alter; [reflexivity | | exact Hs].
    intros t e [= <-]. right. exists gi, v, rest. auto.
  - exact Hs.
  - case_decide; [|exact Hs]. unfold onRootClick.
    destruct (_ && _); [apply single_collapse, Hs | exact Hs].
  - case_decide; [|exact Hs]. apply single_triggerSearch. exact Hs.
  - case_decide; [|exact Hs].
    destruct (single_torn_down s Hs) as [Ht Hhd].
    destruct (onSelectionChange_unfold elements s)
      as [-> | (d & tpl & ext & Hd & He & ->)]; [exact Ht|].
    destruct (expand_spec _ d tpl ext Ht Hhd Hd He)
      as (s' & -> & _ & _ & _ & _ & _ & Hone).
    exact Hone.
  - cbn [resume]. unfold single.
    destruct (transitions_frame (List.filter is_transitionend (listeners (dom s))) s)
      as (-> & -> & -> & _). exact Hs.
  - cbn [resume]. unfold elapse. cbv zeta.
    destruct (timer _) as [p|]; [destruct (_ <=? _)|]; exact Hs.
  - unfold querySettled. destruct (find _ _); [|exact Hs].
    destruct r; exact Hs.
  - unfold fetchSettled. destruct (find _ _) as [f|]; [|exact Hs].
    destruct (downloadOptions f r), (readme f r); cbn [resume];
      try exact Hs; apply single_of_alter; try exact Hs; auto.
  - unfold setVisible. destruct visible; [|exact Hs].
    rewrite collapse_returns. cbn [andThen].
    apply single_triggerSearch. apply single_collapse in Hs.
    rewrite collapse_returns in Hs. exact Hs.
  - unfold layout. cbn [resume]. case_bool_decide; exact Hs.
  - unfold dispose. cbn [resume]. destruct Hs as (H1 & H2 & H3).
    destruct (dispose_all_heap (toDispose s) (set__highlight None s) H3)
      as [Hh Hhd].
    unfold single.
    change (heap (dom (set_toDispose [] ?x))) with (heap (dom x)).
    change (highlightDisposable (set_toDispose [] ?x)) with (highlightDisposable x).
    cbv zeta. change (toDispose (set__highlight None s)) with (toDispose s).
    rewrite Hh, Hhd. split; [exact H1|]. split; [exact H2|]. constructor.
Qed.

Lemma single_created : single created.
Proof.
  unfold single. vm_compute. split; [|split].
  - intros t tpl e Ht. destruct t; discriminate.
  - intros t tpl Ht. destruct t; discriminate.
  - repeat constructor.
Qed.

Lemma exec_single (s : ExtensionsPart) (es : list Event) :
  Forall wf_event es -> single s -> single (exec s es).
Proof.
  revert s. induction es as [|e es IH]; intros s Hes Hs; simpl; [exact Hs|].
  apply Forall_cons in Hes as [He Hes].
  apply IH; [exact Hes | apply step_single; assumption].
Qed.

Lemma in_overlay_lookup (s : ExtensionsPart) (t : nat) :
  in_overlay s t <->
  exists tpl, heap (dom s) !! t = Some tpl /\ container_parent tpl = OverlayEl.
Proof.
  unfold in_overlay, parent_of. rewrite fmap_Some. split.
  - intros (tpl & H1 & H2). eauto.
  - intros (tpl & H1 & H2). eauto.
Qed.

Lemma single_at_most_one (s : ExtensionsPart) (t t' : nat) :
  single s -> in_overlay s t -> in_overlay s t' -> t = t'.
Proof.
  intros (_ & Hhd & _) Ht Ht'.
  apply in_overlay_lookup in Ht as (tpl & Ht & Hp).
  apply in_overlay_lookup in Ht' as (tpl' & Ht' & Hp').
  destruct (highlightDisposable s) as [|l|l c x].
  - exfalso. eapply Hhd; eauto.
  - contradiction.
  - destruct Hhd as (_ & _ & Honly).
    rewrite (Honly t tpl Ht Hp), (Honly t' tpl' Ht' Hp'). reflexivity.
Qed.

Lemma single_only (s : ExtensionsPart) (l : Listener) (c : ElementRef) (x : nat) :
  single s -> highlightDisposable s = highlightTeardown l c x ->
  c <> OverlayEl /\ forall t, in_overlay s t <-> t = x.
Proof.
  intros (_ & Hhd & _) E. rewrite E in Hhd.
  destruct Hhd as (Hc & (tplx & Hx & Hpx) & Honly). split; [exact Hc|].
  intros t. rewrite in_overlay_lookup. split.
  - intros (tpl & Ht & Hp). eapply Honly; eauto.
  - intros ->. eauto.
Qed.

Lemma selection_tears_down_first (s : ExtensionsPart) (l : Listener)
    (c : ElementRef) (x : nat) (elements : list IExtensionEntry) :
  single s -> highlightDisposable s = highlightTeardown l c x ->
  tears_down_first s l c x elements.
Proof.
  intros Hs E.
  destruct (single_only s l c x Hs E) as [Hc Honly].
  destruct (single_torn_down s Hs) as [Ht Hhd].
  assert (Hx : in_overlay s x) by (apply Honly; reflexivity).
  assert (Hheap : heap (dom (torn_down s)) =
                  alter (tpl_set_body "") x
                    (alter (tpl_set_parent c) x (heap (dom s)))).
  { unfold torn_down. cbv zeta.
    change (heap (dom (set_highlightDisposable empty ?y))) with (heap (dom y)).
    rewrite heap_dispose_one.
    change (highlightDisposable (with_dom ?f s)) with (highlightDisposable s).
    rewrite E. reflexivity. }
  apply in_overlay_lookup in Hx as Hx'. destruct Hx' as (tplx & Hlx & _).
  split; [exact Hx|]. split; [exact Hc|].
  split; [unfold parent_of; rewrite Hheap, !list_lookup_alter_eq, Hlx; reflexivity|].
  split; [unfold body_of; rewrite Hheap, !list_lookup_alter_eq, Hlx; reflexivity|].
  split.
  { unfold torn_down. cbv zeta.
    change (listeners (dom (set_highlightDisposable empty ?y)))
      with (listeners (dom y)).
    rewrite listeners_dispose_one.
    change (highlightDisposable (with_dom ?f s)) with (highlightDisposable s).
    rewrite E. simpl. tauto. }
  split; [exact Hhd|].
  split.
  { intros t Hin. apply in_overlay_lookup in Hin as (tpl & Hl & Hp).
    destruct Ht as (_ & Hemp & _). rewrite Hhd in Hemp. eapply Hemp; eauto. }
  split.
  { unfold torn_down. cbv zeta.
    change (log (set_highlightDisposable empty ?y)) with (log y).
    rewrite log_dispose_one.
    change (highlightDisposable (with_dom ?f s)) with (highlightDisposable s).
    rewrite E. cbn [disposed_listener].
    eexists. split; [|reflexivity].
    case_decide; auto. }
  destruct (onSelectionChange_unfold elements s)
    as [-> | (d & tpl & ext & Hd & He & ->)]; [left; reflexivity|].
  right.
  destruct (expand_spec _ d tpl ext Ht Hhd Hd He)
    as (s' & E' & _ & Hhd' & _ & Hh' & Hlog' & Hs').
  exists d, (nextListener (env (torn_down s))), s'.
  split; [exact E'|]. split; [exact Hlog'|]. split; [exact Hh'|].
  apply (single_only s' _ _ d Hs' Hhd').
Qed.

(** * Further properties of the code *)

(** ** Row rendering *)

(** X1. [renderElement] returns exactly when the extension has gallery
    information with a first version. Without gallery information it throws
    before writing anything. With an empty version list it throws after it
    bound the extension to the template, took [loading] off and showed the
    icon: the row keeps its old texts, icon source and body. When it
    returns, the body is empty and the author shown is the gallery's
    publisher display name, so the [extension.publisher] alternative of line
    116 is never displayed. *)
Theorem renderElement_needs_first_version (entry : IExtensionEntry) (index : Z)
    (data : nat) (s : ExtensionsPart) (tpl : ITemplateData) :
  heap (dom s) !! data = Some tpl ->
  (returns (renderElement entry index data s) = true <->
     wf_extension (extension entry)) /\
  (galleryInformation (extension entry) = None ->
     renderElement entry index data s = Threw s) /\
  (forall gi, galleryInformation (extension entry) = Some gi ->
     versions gi = [] ->
     exists s', renderElement entry index data s = Threw s' /\
       heap (dom s') !! data =
         Some {| tpl_extension := Some (extension entry);
                 container_parent := container_parent tpl;
                 element_loading := false; icon_display := "block";
                 icon_src := icon_src tpl; name_text := name_text tpl;
                 version_text := version_text tpl;
                 author_text := author_text tpl;
                 description_text := description_text tpl;
                 body_html := body_html tpl |}) /\
  (forall s', renderElement entry index data s = Done s' ->
     exists gi tpl',
       galleryInformation (extension entry) = Some gi /\
       heap (dom s') !! data = Some tpl' /\
       tpl_extension tpl' = Some (extension entry) /\
       container_parent tpl' = container_parent tpl /\
       author_text tpl' = " by " +:+ publisherDisplayName gi /\
       name_text tpl' = displayName (extension entry) /\
       body_html tpl' = "").
Proof.
  intros Hd. unfold renderElement, wf_extension.
  destruct (galleryInformation (extension entry)) as [gi|] eqn:Hgi.
  - destruct (versions gi) as [|v rest] eqn:Hv.
    + split; [|split; [discriminate|split]].
      * split; [discriminate|]. intros (gi' & v' & r' & [= <-] & H).
        congruence.
      * intros gi' [= <-] _. eexists. split; [reflexivity|].
        cbn. rewrite list_lookup_alter_eq, Hd. reflexivity.
      * discriminate.
    + split; [|split; [discriminate|split]].
      * split; [|reflexivity]. intros _. exists gi, v, rest. auto.
      * intros gi' [= <-] H. congruence.
      * intros s' [= <-]. exists gi. eexists. split; [reflexivity|].
        cbn. rewrite list_lookup_alter_eq, Hd. split; [reflexivity|].
        cbn. auto.
  - split; [|split; [reflexivity|split]].
    + split; [discriminate|]. intros (gi' & v' & r' & H & _). discriminate.
    + discriminate.
    + discriminate.
Qed.

Lemma renderElement_needs_first_version_witness :
  renderElement (toEntry unlisted_extension) 0 0%nat (exec created [RenderTemplate 0])
    = Threw (exec created [RenderTemplate 0]) /\
  returns (renderElement (toEntry bare_extension) 0 0%nat
             (exec created [RenderTemplate 0])) = false /\
  returns (renderElement (toEntry sample_extension) 0 0%nat
             (exec created [RenderTemplate 0])) = true.
Proof.
  assert (Hd : heap (dom (exec created [RenderTemplate 0])) !! 0%nat =
               Some {| tpl_extension := None; container_parent := Row 0;
                       element_loading := false; icon_display := "";
                       icon_src := ""; name_text := ""; version_text := "";
                       author_text := ""; description_text := "";
                       body_html := "" |}) by (vm_compute; reflexivity).
  split; [|split].
  - exact (proj1 (proj2 (renderElement_needs_first_version
                           (toEntry unlisted_extension) 0 0%nat _ _ Hd)) eq_refl).
  - destruct (proj1 (proj2 (proj2 (renderElement_needs_first_version
                (toEntry bare_extension) 0 0%nat _ _ Hd))) _ eq_refl eq_refl)
      as (s' & -> & _). reflexivity.
  - apply (proj1 (renderElement_needs_first_version
                    (toEntry sample_extension) 0 0%nat _ _ Hd)).
    exists {| publisherDisplayName := "Pub";
              versions := [sample_version; older_version] |},
           sample_version, [older_version]. split; reflexivity.
Defined.

(** ** The setter on a template without a first version *)

(** X2. When the template handed to the setter is bound to nothing, or to an
    extension without gallery information or without a version, the setter
    throws at lines 301-302: by then the container hangs under the overlay
    and the [transitionend] listener is registered, but no request is
    started and the highlight disposable is not replaced. If it was [empty],
    the next collapse puts nothing back: the container stays under the
    overlay. *)
Theorem expansion_without_version_leaks (s : ExtensionsPart) (d : nat)
    (tpl : ITemplateData) :
  heap (dom s) !! d = Some tpl ->
  no_first_version tpl ->
  exists s', set_highlight (Some d) s = Threw s' /\
    in_overlay s' d /\
    _highlight s' = Some d /\
    highlightDisposable s' = highlightDisposable s /\
    fetches (env s') = fetches (env s) /\
    listeners (dom s') =
      listeners (dom s) ++ [TransitionEnd (nextListener (env s))] /\
    (highlightDisposable s = empty ->
       in_overlay (resume (set_highlight None s')) d).
Proof.
  intros Hd Hno.
  destruct s as [[hp ls rc sb bh bl ot oh] [ck qs fs nf nl]
                   ts m dl hl hd td lg].
  cbn in Hd. unfold set_highlight, listen. unfold_updates. cbn [env nextListener].
  rewrite Hd.
  assert (Hin : forall h', in_overlay
    {| dom := {| heap := alter (tpl_set_parent OverlayEl) d hp; listeners := ls ++ [TransitionEnd nl];
                 root_className := expand_classes rc; searchBox_value := sb;
                 extensionsBox_height := bh; extensionsBox_loading := bl;
                 overlay_top := Zero; overlay_height := bh |};
       env := {| clock := ck; queries := qs; fetches := fs; nextFetch := nf;
                 nextListener := S nl |};
       templates := ts; list_model := m; searchDelayer := dl;
       _highlight := Some d; highlightDisposable := h'; toDispose := td;
       log := (lg ++ [AppendChild OverlayEl d]) ++ [AddListener (TransitionEnd nl)] |} d).
  { intros h'. unfold in_overlay, parent_of. cbn.
    rewrite list_lookup_alter_eq, Hd. reflexivity. }
  unfold no_first_version in Hno.
  destruct (tpl_extension tpl) as [e|];
    [destruct (galleryInformation e) as [gi|]; [rewrite Hno|]|].
  all: eexists; split; [reflexivity|]; cbn.
  all: split; [apply Hin|].
  all: repeat (split; [reflexivity|]).
  all: intros ->; unfold set_highlight, dispose_one; unfold_updates;
       cbn [resume]; unfold in_overlay, parent_of; cbn;
       rewrite list_lookup_alter_eq, Hd; reflexivity.
Qed.

Lemma expansion_without_version_leaks_witness :
  no_first_version
    {| tpl_extension := None; container_parent := Row 0;
       element_loading := false; icon_display := ""; icon_src := "";
       name_text := ""; version_text := ""; author_text := "";
       description_text := ""; body_html := "" |} /\
  returns (set_highlight (Some 0%nat) (exec created [RenderTemplate 0])) = false.
Proof.
  split; [exact I|].
  destruct (expansion_without_version_leaks (exec created [RenderTemplate 0]) 0
              {| tpl_extension := None; container_parent := Row 0;
                 element_loading := false; icon_display := ""; icon_src := "";
                 name_text := ""; version_text := ""; author_text := "";
                 description_text := ""; body_html := "" |})
    as (s' & E & _); [vm_compute; reflexivity | exact I |].
  rewrite E. reflexivity.
Defined.

(** ** The readme request, stage by stage *)

(** X3. The readme promise is fulfilled exactly when the settings, the
    download and the parser all succeed, with what the parser made of the
    downloaded text; the download is handed the readme url of the request,
    its headers, the [strictSSL] setting and an agent built from the url and
    the two settings. When the settings fail, no options are ever built, and
    the whole chain rejects with the settings' reason. *)
Theorem readme_chain (f : Fetch) (r : FetchReply) (html : string) :
  (readme f r = Fulfilled html <->
   exists proxyUrl strict raw,
     reply_settings r = Fulfilled (proxyUrl, strict) /\
     reply_download r
       {| url := fetch_url f;
          agent := {| agent_url := fetch_url f; agent_proxyUrl := proxyUrl;
                      agent_strictSSL := strict |};
          strictSSL := strict;
          headers := Some (fetch_headers f) |} = Fulfilled raw /\
     reply_parse r raw = Fulfilled html) /\
  (forall reason, reply_settings r = Rejected reason ->
     downloadOptions f r = Rejected reason /\ readme f r = Rejected reason).
Proof.
  unfold readme, downloadOptions, request, assign_headers. split.
  - destruct (reply_settings r) as [[proxyUrl strict]|reason]; cbn.
    + split.
      * destruct (reply_download r _) as [raw|] eqn:Hd; cbn; [|discriminate].
        intros Hp. exists proxyUrl, strict, raw. auto.
      * intros (p' & s' & raw & [= <- <-] & Hd & Hp). rewrite Hd. exact Hp.
    + split; [discriminate|]. intros (p' & s' & raw & H & _). discriminate.
  - intros reason ->. split; reflexivity.
Qed.

Lemma readme_chain_witness :
  readme {| fetch_id := 0; fetch_data := 0;
            fetch_url := readmeUrl sample_version;
            fetch_headers := downloadHeaders sample_version |}
         {| reply_settings := Rejected "EACCES";
            reply_download := fun _ => Fulfilled "# Readme";
            reply_parse := fun raw => Fulfilled raw |}
  = Rejected "EACCES".
Proof.
  exact (proj2 (proj2 (readme_chain
           {| fetch_id := 0; fetch_data := 0;
              fetch_url := readmeUrl sample_version;
              fetch_headers := downloadHeaders sample_version |}
           {| reply_settings := Rejected "EACCES";
              reply_download := fun _ => Fulfilled "# Readme";
              reply_parse := fun raw => Fulfilled raw |} "") "EACCES" eq_refl)).
Defined.

(** ** Layout *)

(** X4. [layout] gives the extensions box the height less 72 pixels when
    that is not negative and leaves its height alone otherwise; it touches
    the overlay only while the highlight reference is set, in which case the
    overlay gets the height the box then has. No template, listener or
    effect is touched. Of two layouts in a row the second shows, unless its
    height is below 72: then the result is that of the first. *)
Theorem layout_last_wins (s : ExtensionsPart) (h1 h2 : Z) :
  andThen (layout h1 s) (layout h2) =
    (if 72 <=? h2 then layout h2 s else layout h1 s) /\
  extensionsBox_height (dom (resume (layout h2 s))) =
    (if 72 <=? h2 then Px (h2 - 72) else extensionsBox_height (dom s)) /\
  overlay_height (dom (resume (layout h2 s))) =
    (if bool_decide (is_Some (_highlight s))
     then extensionsBox_height (dom (resume (layout h2 s)))
     else overlay_height (dom s)) /\
  heap (dom (resume (layout h2 s))) = heap (dom s) /\
  listeners (dom (resume (layout h2 s))) = listeners (dom s) /\
  log (resume (layout h2 s)) = log s.
Proof.
  destruct s as [[hp ls rc sb bh bl ot oh] e ts m dl hl hd td lg].
  unfold layout, set_height. unfold_updates. cbn [andThen resume].
  destruct (Z.leb_spec 72 h2), (Z.leb_spec 0 (h2 - 72)); try lia;
    destruct (Z.leb_spec 0 (h1 - 72));
    destruct hl as [x|]; cbn; repeat split; reflexivity.
Qed.

(** ** Selecting nothing *)

Lemma layout_overlay_height (s : ExtensionsPart) (h : Z) :
  overlay_height (dom (resume (layout h s))) =
  if bool_decide (is_Some (_highlight s))
  then set_height (h - 72) (extensionsBox_height (dom s))
  else overlay_height (dom s).
Proof.
  destruct s as [[hp ls rc sb bh bl ot oh] e ts m dl hl hd td lg].
  unfold layout. unfold_updates. cbn [resume]. destruct hl; reflexivity.
Qed.

(** X5. An empty selection runs the armed teardown and returns, but it
    does not clear the highlight reference, and of the root's classes it
    removes only [animated]. A layout that follows therefore gives the
    overlay the height of the extensions box again, although the teardown
    had just set it to 0. *)
Theorem empty_selection_keeps_reference (s : ExtensionsPart) :
  onSelectionChange [] s = Done (torn_down s) /\
  _highlight (torn_down s) = _highlight s /\
  highlightDisposable (torn_down s) = empty /\
  root_className (dom (torn_down s)) = removeClass ["animated"] (root_className (dom s)) /\
  (forall l c x, highlightDisposable s = highlightTeardown l c x ->
     overlay_height (dom (torn_down s)) = Zero) /\
  (forall x h, _highlight s = Some x ->
     overlay_height (dom (resume (layout h (torn_down s)))) =
       extensionsBox_height (dom (resume (layout h (torn_down s)))) /\
     (72 <= h ->
      overlay_height (dom (resume (layout h (torn_down s)))) = Px (h - 72))).
Proof.
  split; [reflexivity|].
  destruct (dispose_one_frame
              (highlightDisposable (with_dom (dom_root deselect_classes) s))
              (with_dom (dom_root deselect_classes) s))
    as (_ & _ & _ & _ & Hh & _ & _ & _ & _ & H1 & H2).
  unfold torn_down. cbv zeta.
  change (_highlight (set_highlightDisposable empty ?y)) with (_highlight y).
  change (dom (set_highlightDisposable empty ?y)) with (dom y).
  rewrite Hh, H1.
  repeat (split; [reflexivity|]).
  split.
  - intros l c x E.
    change (highlightDisposable (with_dom ?f s)) with (highlightDisposable s).
    rewrite E. reflexivity.
  - intros x h Hx.
    set (t := set_highlightDisposable empty _).
    assert (Ht : _highlight t = Some x).
    { subst t.
      change (_highlight (set_highlightDisposable empty ?y)) with (_highlight y).
      rewrite Hh. exact Hx. }
    assert (Hbox : extensionsBox_height (dom (resume (layout h t))) =
                   set_height (h - 72) (extensionsBox_height (dom t))).
    { clear. destruct t as [[hp ls rc sb bh bl ot oh] e ts m dl hl hd td lg].
      unfold layout. unfold_updates. cbn [resume]. destruct hl; reflexivity. }
    rewrite layout_overlay_height, Hbox, Ht. split; [reflexivity|].
    intros Hh72. unfold set_height.
    destruct (Z.leb_spec 0 (h - 72)); [reflexivity | lia].
Qed.

Lemma empty_selection_keeps_reference_witness :
  _highlight sample_highlighted = Some 0%nat /\
  overlay_height (dom (resume (layout 600 (torn_down sample_highlighted)))) = Px 528.
Proof.
  assert (H : _highlight sample_highlighted = Some 0%nat) by (vm_compute; reflexivity).
  split; [exact H|].
  exact (proj2 (proj2 (proj2 (proj2 (proj2 (proj2
           (empty_selection_keeps_reference sample_highlighted))))) 0%nat 600 H)
         ltac:(lia)).
Defined.

(** ** Disposal, again *)

(** X6. A second [dispose()] changes nothing, and once [dispose()] has run
    with the click listener's disposable in [toDispose], a click on the root
    or anywhere else is ignored. *)
Theorem dispose_idempotent (s : ExtensionsPart) :
  andThen (dispose s) dispose = dispose s /\
  (forall b, In (listenerDisposable RootClick) (toDispose s) ->
     step (Click b) (resume (dispose s)) = Done (resume (dispose s))).
Proof.
  destruct (dispose_all_frame (toDispose s) (set__highlight None s))
    as (_ & _ & _ & Hh & _ & Hl).
  unfold dispose at 1 3 4 5. cbv zeta. cbn [andThen resume].
  change (toDispose (set__highlight None s)) with (toDispose s).
  set (X := foldl (fun s d => dispose_one d s) (set__highlight None s) (toDispose s)) in *.
  split.
  - unfold dispose. destruct X as [dm e ts m dl hl hd td lg].
    cbn in Hh. subst hl. reflexivity.
  - intros b Hin. cbn [step].
    change (dom (set_toDispose [] X)) with (dom X).
    case_decide as Hreg; [|reflexivity].
    exfalso. apply Hl in Hreg as [_ Hall].
    rewrite Forall_forall in Hall.
    exact (Hall _ (proj2 (list_elem_of_In _ _) Hin) eq_refl).
Qed.

Lemma dispose_idempotent_witness :
  In (listenerDisposable RootClick) (toDispose sample_highlighted) /\
  step (Click true) (resume (dispose sample_highlighted))
    = Done (resume (dispose sample_highlighted)).
Proof.
  assert (H : In (listenerDisposable RootClick) (toDispose sample_highlighted))
    by (vm_compute; auto).
  split; [exact H|].
  exact (proj2 (dispose_idempotent sample_highlighted) true H).
Defined.

(** ** The end of the transition *)

Lemma listeners_transitions (ls : list Listener) (s : ExtensionsPart) (x : Listener) :
  x ∈ listeners (dom (foldl (fun s l => onTransitionEnd l s) s ls)) <->
  x ∈ listeners (dom s) /\ x ∉ ls.
Proof.
  revert s. induction ls as [|l ls IH]; intros s; simpl.
  - rewrite elem_of_nil. tauto.
  - rewrite IH. unfold onTransitionEnd.
    change (listeners (dom (with_dom ?f ?y))) with (listeners (dom y)).
    rewrite listeners_unlisten, not_elem_of_cons. tauto.
Qed.

Lemma filter_none {A : Type} (f : A -> bool) (l : list A) :
  (forall x, In x l -> f x = false) -> List.filter f l = [].
Proof.
  induction l as [|a l IH]; intros H; simpl; [reflexivity|].
  rewrite (H a (or_introl eq_refl)). apply IH. intros x Hx. apply H. right. exact Hx.
Qed.

Lemma starts_with_single (w : string) (l : list string) :
  starts_with [w] l = true -> In w l.
Proof.
  destruct l as [|b l]; simpl; [discriminate|].
  rewrite andb_true_r. intros H. apply String.eqb_eq in H. auto.
Qed.

Lemma findClassName_single (w : string) (l : list string) :
  findClassName [w] l = true -> In w l.
Proof.
  induction l as [|b l IH]; [discriminate|].
  cbn [findClassName]. intros H. apply orb_true_iff in H as [H | H].
  - apply starts_with_single, H.
  - right. apply IH, H.
Qed.

Lemma addClass_single_In (w : string) (l : list string) :
  In w (addClass [w] l).
Proof.
  unfold addClass. destruct l as [|b l]; [left; reflexivity|].
  unfold hasClass. destruct (findClassName [w] (b :: l)) eqn:E.
  - apply findClassName_single, E.
  - apply in_app_iff. right. left. reflexivity.
Qed.

Lemma transitions_classes (ls : list Listener) (s : ExtensionsPart) :
  ls <> [] ->
  In "highlighted"
    (root_className (dom (foldl (fun s l => onTransitionEnd l s) s ls))).
Proof.
  revert s. induction ls as [|l ls IH]; intros s Hne; [contradiction|].
  destruct ls as [|l' ls]; [|apply IH; discriminate].
  cbn [foldl]. unfold onTransitionEnd.
  change (root_className (dom (with_dom (dom_root settled_classes) ?y)))
    with (settled_classes (root_className (dom y))).
  apply addClass_single_In.
Qed.

(** X7. When the transition ends, every registered [transitionend] callback
    runs once and removes itself: a second [transitionend] event changes
    nothing. The templates, the highlight reference and the armed teardown
    are as before. If a listener was registered, the root ends with the
    class [highlighted]; if exactly one was, the root's classes are those it
    had with the first [animated] and the first [highlight-in] cut out and
    [highlighted] added. *)
Theorem transitionend_runs_once (s : ExtensionsPart) :
  exec s [TransitionEnds; TransitionEnds] = exec s [TransitionEnds] /\
  heap (dom (exec s [TransitionEnds])) = heap (dom s) /\
  highlightDisposable (exec s [TransitionEnds]) = highlightDisposable s /\
  _highlight (exec s [TransitionEnds]) = _highlight s /\
  (forall n, TransitionEnd n ∉ listeners (dom (exec s [TransitionEnds]))) /\
  (forall n, TransitionEnd n ∈ listeners (dom s) ->
     In "highlighted" (root_className (dom (exec s [TransitionEnds])))) /\
  (forall l, List.filter is_transitionend (listeners (dom s)) = [l] ->
     root_className (dom (exec s [TransitionEnds])) =
     addClass ["highlighted"]
       (removeClass ["highlight-in"]
          (removeClass ["animated"] (root_className (dom s))))).
Proof.
  cbn [exec foldl step resume].
  set (ls := List.filter is_transitionend (listeners (dom s))).
  set (s' := foldl (fun s l => onTransitionEnd l s) s ls).
  assert (Hnone : forall n, TransitionEnd n ∉ listeners (dom s')).
  { intros n Hin. apply listeners_transitions in Hin as [Hin Hout].
    apply Hout. apply list_elem_of_In, filter_In. split; [|reflexivity].
    apply list_elem_of_In, Hin. }
  assert (Hnil : List.filter is_transitionend (listeners (dom s')) = []).
  { apply filter_none. intros [| | |n] Hx; try reflexivity.
    exfalso. apply (Hnone n), list_elem_of_In, Hx. }
  split; [rewrite Hnil; reflexivity|].
  destruct (transitions_frame ls s) as (H1 & H2 & _ & H4).
  split; [exact H1|]. split; [exact H2|]. split; [exact H4|].
  split; [exact Hnone|]. split.
  - intros n Hn. apply transitions_classes. intros Hls.
    assert (Hin : In (TransitionEnd n) ls).
    { apply filter_In. split; [apply list_elem_of_In, Hn | reflexivity]. }
    rewrite Hls in Hin. exact Hin.
  - intros l Hl. subst s'. rewrite Hl. cbn [foldl].
    unfold onTransitionEnd, unlisten. case_decide; reflexivity.
Qed.

Lemma transitionend_runs_once_witness :
  TransitionEnd 0 ∈ listeners (dom sample_highlighted) /\
  In "highlighted" (root_className (dom (exec sample_highlighted [TransitionEnds]))).
Proof.
  assert (H : TransitionEnd 0 ∈ listeners (dom sample_highlighted)).
  { apply list_elem_of_In. vm_compute. auto. }
  split; [exact H|].
  exact (proj1 (proj2 (proj2 (proj2 (proj2 (proj2
           (transitionend_runs_once sample_highlighted)))))) 0%nat H).
Defined.

(** ** Expanding and collapsing *)

Lemma restore_parent (tpl : ITemplateData) :
  tpl_set_body "" (tpl_set_parent (container_parent tpl)
                     (tpl_set_parent OverlayEl tpl))
  = tpl_set_body "" tpl.
Proof. destruct tpl; reflexivity. Qed.

Lemma alter_restore (h : list ITemplateData) (d : nat) (tpl : ITemplateData) :
  h !! d = Some tpl ->
  alter (tpl_set_body "") d
    (alter (tpl_set_parent (container_parent tpl)) d
       (alter (tpl_set_parent OverlayEl) d h))
  = alter (tpl_set_body "") d h.
Proof.
  intros Hd. apply list_eq. intros i.
  destruct (decide (i = d)) as [->|Hne].
  - rewrite !list_lookup_alter_eq, Hd. simpl. rewrite restore_parent. reflexivity.
  - rewrite !list_lookup_alter_ne by congruence. reflexivity.
Qed.

(** X8. Expanding a template from a state with nothing highlighted and then
    collapsing it gives the templates back as they were, each container
    under the parent it had, except that the body of the expanded template
    is now empty; the listener of the expansion is gone again. The readme
    request that the expansion started is still on its way. *)
Theorem expand_then_collapse (s : ExtensionsPart) (d : nat)
    (tpl : ITemplateData) (e : IExtension) :
  single s -> highlightDisposable s = empty ->
  heap (dom s) !! d = Some tpl -> tpl_extension tpl = Some e ->
  exists s1 s2,
    set_highlight (Some d) s = Done s1 /\
    set_highlight None s1 = Done s2 /\
    heap (dom s2) = alter (tpl_set_body "") d (heap (dom s)) /\
    (forall t, parent_of s2 t = parent_of s t) /\
    highlightDisposable s2 = empty /\
    _highlight s2 = None /\
    (forall x, x ∈ listeners (dom s2) <->
       x ∈ listeners (dom s) /\ x <> TransitionEnd (nextListener (env s))) /\
    length (fetches (env s2)) = S (length (fetches (env s))).
Proof.
  intros Hs Hhd Hd He.
  assert (Hw : wf_extension e) by (destruct Hs as (Hwf & _); eapply Hwf; eauto).
  destruct Hw as (gi & v & rest & Hgi & Hv).
  destruct s as [[hp ls rc sb bh bl ot oh] [ck qs fs nf nl]
                   ts m dl hl hd td lg].
  cbn in Hhd, Hd. subst hd.
  unfold set_highlight at 1. unfold listen. unfold_updates. cbn [env nextListener].
  rewrite Hd, He, Hgi, Hv.
  eexists. eexists. split; [reflexivity|].
  unfold set_highlight, dispose_one, unlisten. unfold_updates.
  assert (Hreg : TransitionEnd nl ∈ ls ++ [TransitionEnd nl])
    by (apply elem_of_app; right; apply list_elem_of_singleton; reflexivity).
  case_decide; [|contradiction].
  split; [reflexivity|]. cbn.
  rewrite (alter_restore hp d tpl Hd).
  split; [reflexivity|]. split.
  { intros t. unfold parent_of. cbn. rewrite list_lookup_alter.
    case_decide as Ht; [subst t|reflexivity].
    rewrite Hd. reflexivity. }
  split; [reflexivity|]. split; [reflexivity|]. split.
  { intros x. rewrite list_elem_of_filter, elem_of_app, list_elem_of_singleton.
    split; [|tauto]. intros [Hne [Hx | Hx]]; [tauto | contradiction]. }
  rewrite length_app. simpl. lia.
Qed.

Lemma expand_then_collapse_witness :
  exists s1 s2,
    set_highlight (Some 0%nat) (exec created two_rows) = Done s1 /\
    set_highlight None s1 = Done s2 /\
    heap (dom s2) = alter (tpl_set_body "") 0%nat (heap (dom (exec created two_rows))).
Proof.
  assert (Hwf : Forall wf_event two_rows).
  { repeat constructor; simpl; unfold wf_extension; simpl; eauto. }
  destruct (expand_then_collapse (exec created two_rows) 0
              {| tpl_extension := Some sample_extension;
                 container_parent := Row 0; element_loading := false;
                 icon_display := "block"; icon_src := iconUrl sample_version;
                 name_text := "Ext"; version_text := " 1.0";
                 author_text := " by Pub";
                 description_text := "An extension"; body_html := "" |}
              sample_extension
              (exec_single created two_rows Hwf single_created))
    as (s1 & s2 & E1 & E2 & Hh & _);
    [vm_compute; reflexivity | vm_compute; reflexivity | reflexivity |].
  exists s1, s2. auto.
Defined.

(** ** Housekeeping along a run *)

Lemma length_heap_dispose_one (d : IDisposable) (s : ExtensionsPart) :
  length (heap (dom (dispose_one d s))) = length (heap (dom s)).
Proof.
  rewrite heap_dispose_one. destruct d; rewrite ?length_alter; reflexivity.
Qed.

Lemma collapse_shape (s : ExtensionsPart) :
  (forall x, x ∈ listeners (dom (resume (set_highlight None s))) <->
     x ∈ listeners (dom s) /\ disposed_listener (highlightDisposable s) <> Some x) /\
  highlightDisposable (resume (set_highlight None s)) = empty /\
  toDispose (resume (set_highlight None s)) = toDispose s /\
  templates (resume (set_highlight None s)) = templates s /\
  length (heap (dom (resume (set_highlight None s)))) = length (heap (dom s)).
Proof.
  rewrite collapse_returns. cbn [resume].
  set (s0 := with_dom (dom_root collapse_classes)
               (set__highlight None s)).
  change (dom (set_highlightDisposable empty ?y)) with (dom y).
  change (toDispose (set_highlightDisposable empty ?y)) with (toDispose y).
  change (templates (set_highlightDisposable empty ?y)) with (templates y).
  destruct (dispose_one_frame (highlightDisposable s) s0)
    as (_ & Ht & _ & _ & _ & _ & Htd & _).
  rewrite Ht, Htd, length_heap_dispose_one.
  split; [|auto]. intros x. rewrite listeners_dispose_one. reflexivity.
Qed.

Lemma torn_down_shape (s : ExtensionsPart) :
  (forall x, x ∈ listeners (dom (torn_down s)) <->
     x ∈ listeners (dom s) /\ disposed_listener (highlightDisposable s) <> Some x) /\
  toDispose (torn_down s) = toDispose s /\
  templates (torn_down s) = templates s /\
  length (heap (dom (torn_down s))) = length (heap (dom s)) /\
  env (torn_down s) = env s.
Proof.
  unfold torn_down. cbv zeta.
  set (s0 := with_dom (dom_root deselect_classes) s).
  change (highlightDisposable s0) with (highlightDisposable s).
  change (dom (set_highlightDisposable empty ?y)) with (dom y).
  change (toDispose (set_highlightDisposable empty ?y)) with (toDispose y).
  change (templates (set_highlightDisposable empty ?y)) with (templates y).
  change (env (set_highlightDisposable empty ?y)) with (env y).
  destruct (dispose_one_frame (highlightDisposable s) s0)
    as (He & Ht & _ & _ & _ & _ & Htd & _).
  rewrite He, Ht, Htd, length_heap_dispose_one.
  split; [|auto]. intros x. rewrite listeners_dispose_one. reflexivity.
Qed.

Lemma expand_shape (s : ExtensionsPart) (d : nat) (tpl : ITemplateData)
    (e : IExtension) :
  wf_extension e ->
  heap (dom s) !! d = Some tpl -> tpl_extension tpl = Some e ->
  listeners (dom (resume (set_highlight (Some d) s))) =
    listeners (dom s) ++ [TransitionEnd (nextListener (env s))] /\
  highlightDisposable (resume (set_highlight (Some d) s)) =
    highlightTeardown (TransitionEnd (nextListener (env s)))
      (container_parent tpl) d /\
  toDispose (resume (set_highlight (Some d) s)) = toDispose s /\
  templates (resume (set_highlight (Some d) s)) = templates s /\
  length (heap (dom (resume (set_highlight (Some d) s)))) = length (heap (dom s)).
Proof.
  intros (gi & v & rest & Hgi & Hv) Hd He.
  destruct s as [[hp ls rc sb bh bl ot oh] [ck qs fs nf nl]
                   ts m dl hl hd td lg].
  cbn in Hd. unfold set_highlight, listen. unfold_updates. cbn [env nextListener].
  rewrite Hd, He, Hgi, Hv. cbn. rewrite length_alter. auto.
Qed.

Lemma tidy_keep (s s' : ExtensionsPart) :
  tidy s ->
  (forall x, x ∈ listeners (dom s') -> x ∈ listeners (dom s)) ->
  highlightDisposable s' = highlightDisposable s ->
  toDispose s' = toDispose s ->
  templates s' = templates s ->
  length (heap (dom s')) = length (heap (dom s)) ->
  tidy s'.
Proof.
  intros (H1 & H2 & H3 & H4) Hl Hhd Htd Hts Hlen. unfold tidy.
  rewrite Hhd, Htd, Hts, Hlen. auto.
Qed.

Lemma tidy_collapsed (s s' : ExtensionsPart) :
  tidy s ->
  (forall x, x ∈ listeners (dom s') <->
     x ∈ listeners (dom s) /\ disposed_listener (highlightDisposable s) <> Some x) ->
  highlightDisposable s' = empty ->
  toDispose s' = toDispose s ->
  templates s' = templates s ->
  length (heap (dom s')) = length (heap (dom s)) ->
  tidy s' /\ forall n, TransitionEnd n ∉ listeners (dom s').
Proof.
  intros (H1 & H2 & H3 & H4) Hl Hhd Htd Hts Hlen.
  assert (Hnone : forall n, TransitionEnd n ∉ listeners (dom s')).
  { intros n Hn. apply Hl in Hn as [Hn Hne].
    destruct (H1 n Hn) as (c & x & E). rewrite E in Hne. apply Hne. reflexivity. }
  split; [|exact Hnone]. unfold tidy. rewrite Htd, Hts, Hlen.
  split; [intros n Hn; destruct (Hnone n Hn)|].
  split; [|auto]. intros Hr. apply H2, Hl, Hr.
Qed.

Lemma tidy_collapse (s : ExtensionsPart) :
  tidy s ->
  tidy (resume (set_highlight None s)) /\
  forall n, TransitionEnd n ∉ listeners (dom (resume (set_highlight None s))).
Proof.
  intros Ht. destruct (collapse_shape s) as (Hl & Hhd & Htd & Hts & Hlen).
  apply (tidy_collapsed s); assumption.
Qed.

Lemma tidy_triggerSearch (txt : string) (delay : Z) (s : ExtensionsPart) :
  tidy s ->
  tidy (resume (triggerSearch txt delay s)) /\
  forall n, TransitionEnd n ∉ listeners (dom (resume (triggerSearch txt delay s))).
Proof.
  intros Ht. unfold triggerSearch. rewrite collapse_returns. cbn [andThen resume].
  apply tidy_collapse in Ht. rewrite collapse_returns in Ht. exact Ht.
Qed.

Lemma remove_first_In (x y : nat) (l : list nat) :
  In y (remove_first x l) -> In y l.
Proof.
  induction l as [|a l IH]; simpl; [auto|].
  destruct (Nat.eqb x a); simpl; tauto.
Qed.

Lemma remove_first_NoDup (x : nat) (l : list nat) :
  NoDup l -> NoDup (remove_first x l).
Proof.
  induction 1 as [|a l Ha Hl IH]; simpl; [constructor|].
  destruct (Nat.eqb x a); [exact Hl|].
  constructor; [|exact IH]. intros Hin. apply Ha.
  apply list_elem_of_In, (remove_first_In x). apply list_elem_of_In, Hin.
Qed.

Lemma dispose_all_templates (ds : list IDisposable) (s : ExtensionsPart) :
  templates (foldl (fun s d => dispose_one d s) s ds) = templates s.
Proof.
  revert s. induction ds as [|d ds IH]; intros s; simpl; [reflexivity|].
  rewrite IH. apply (dispose_one_frame d s).
Qed.

Lemma step_tidy (e : Event) (s : ExtensionsPart) :
  wf_event e -> single s -> tidy s -> tidy (resume (step e s)).
Proof.
  intros Hwf Hs Ht. destruct e; cbn [step].
  - destruct Ht as (H1 & H2 & H3 & H4). unfold tidy. cbn.
    split; [exact H1|]. split; [exact H2|]. split.
    + apply NoDup_app. split; [exact H3|]. split; [|apply NoDup_singleton].
      intros x Hx Hx'. apply list_elem_of_singleton in Hx'. subst x.
      apply list_elem_of_In, H4 in Hx. lia.
    + intros t Hin. rewrite length_app. simpl.
      apply in_app_iff in Hin as [Hin | [<- | []]]; [apply H4 in Hin|]; lia.
  - apply (tidy_keep s); auto. cbn. apply length_alter.
  - unfold renderElement.
    destruct (galleryInformation _) as [gi|]; [destruct (versions gi)|];
      apply (tidy_keep s); auto; cbn; apply length_alter.
  - destruct Ht as (H1 & H2 & H3 & H4). unfold tidy. cbn.
    split; [exact H1|]. split; [exact H2|].
    split; [apply remove_first_NoDup, H3|].
    intros t Hin. apply H4, (remove_first_In data), Hin.
  - case_decide; [|exact Ht]. unfold onRootClick.
    destruct (_ && _); [apply tidy_collapse, Ht | exact Ht].
  - case_decide; [|exact Ht]. apply tidy_triggerSearch.
    apply (tidy_keep s); auto.
  - case_decide; [|exact Ht].
    destruct (torn_down_shape s) as (Hl & Htd & Hts & Hlen & Henv).
    destruct (single_torn_down s Hs) as [Hst Hhd].
    destruct (tidy_collapsed s (torn_down s) Ht Hl Hhd Htd Hts Hlen) as [Htt Hnone].
    destruct (onSelectionChange_unfold elements s)
      as [-> | (d & tpl & ext & Hd & He & ->)]; [exact Htt|].
    assert (Hw : wf_extension ext) by (destruct Hst as (Hwf' & _); eapply Hwf'; eauto).
    destruct (expand_shape (torn_down s) d tpl ext Hw Hd He)
      as (Hl' & Hhd' & Htd' & Hts' & Hlen').
    destruct Htt as (H1 & H2 & H3 & H4). unfold tidy.
    rewrite Hl', Hhd', Htd', Hts', Hlen'.
    split; [|split; [|auto]].
    + intros n Hn. apply elem_of_app in Hn as [Hn | Hn]; [destruct (Hnone n Hn)|].
      apply list_elem_of_singleton in Hn. injection Hn as ->. eauto.
    + intros Hr. apply H2. apply elem_of_app in Hr as [Hr | Hr]; [exact Hr|].
      apply list_elem_of_singleton in Hr. discriminate.
  - cbn [resume].
    destruct (transitions_frame (List.filter is_transitionend (listeners (dom s))) s)
      as (Hh & Hhd & Htd & _).
    apply (tidy_keep s); auto.
    + intros x Hx. apply listeners_transitions in Hx. tauto.
    + clear. generalize (List.filter is_transitionend (listeners (dom s))).
      intros ls. revert s. induction ls as [|l ls IH]; intros s; simpl; [reflexivity|].
      rewrite IH. unfold onTransitionEnd, unlisten. case_decide; reflexivity.
    + rewrite Hh. reflexivity.
  - cbn [resume]. unfold elapse. cbv zeta.
    destruct (timer _) as [p|]; [destruct (_ <=? _)|]; exact Ht.
  - unfold querySettled. destruct (find _ _); [|exact Ht].
    destruct r; exact Ht.
  - unfold fetchSettled. destruct (find _ _) as [f|]; [|exact Ht].
    destruct (downloadOptions f r), (readme f r); cbn [resume];
      try exact Ht; apply (tidy_keep s); auto; cbn; apply length_alter.
  - unfold setVisible. destruct visible; [|exact Ht].
    rewrite collapse_returns. cbn [andThen].
    apply tidy_triggerSearch. apply tidy_collapse in Ht as [Ht _].
    rewrite collapse_returns in Ht. apply (tidy_keep _ _ Ht); auto.
  - unfold layout. cbn [resume]. case_bool_decide; exact Ht.
  - unfold dispose. cbn [resume]. cbv zeta.
    change (toDispose (set__highlight None s)) with (toDispose s).
    destruct (dispose_all_frame (toDispose s) (set__highlight None s))
      as (_ & _ & _ & _ & _ & Hl).
    destruct Hs as (_ & _ & Hnt).
    destruct (dispose_all_heap (toDispose s) (set__highlight None s) Hnt)
      as [Hh Hhd].
    set (X := foldl (fun s d => dispose_one d s) (set__highlight None s) (toDispose s)) in *.
    destruct Ht as (H1 & H2 & H3 & H4). unfold tidy.
    change (dom (set_toDispose [] X)) with (dom X).
    change (highlightDisposable (set_toDispose [] X)) with (highlightDisposable X).
    change (templates (set_toDispose [] X)) with (templates X).
    change (toDispose (set_toDispose [] X)) with (@nil IDisposable).
    rewrite Hhd, Hh.
    split; [intros n Hn; apply Hl in Hn as [Hn _]; apply H1, Hn|].
    split.
    + intros Hr. exfalso. apply Hl in Hr as [Hr Hall].
      rewrite Forall_forall in Hall.
      exact (Hall _ (proj2 (list_elem_of_In _ _) (H2 Hr)) eq_refl).
    + assert (Hts : templates X = templates s)
        by apply (dispose_all_templates (toDispose s) (set__highlight None s)).
      rewrite Hts. auto.
Qed.

Lemma tidy_created : tidy created.
Proof.
  unfold tidy. vm_compute. split; [|split; [|split]].
  - intros n Hn. apply list_elem_of_In in Hn.
    destruct Hn as [Hn | [Hn | [Hn | []]]]; discriminate.
  - intros _. left. reflexivity.
  - constructor.
  - intros t [].
Qed.

Lemma exec_single_tidy (s : ExtensionsPart) (es : list Event) :
  Forall wf_event es -> single s -> tidy s ->
  single (exec s es) /\ tidy (exec s es).
Proof.
  revert s. induction es as [|e es IH]; intros s Hes Hs Ht; simpl; [auto|].
  apply Forall_cons in Hes as [He Hes].
  apply IH; [exact Hes | apply step_single | apply step_tidy]; assumption.
Qed.

(** X9. In a run in which the list renders extensions that carry a version,
    a [transitionend] listener is registered only for the highlight whose
    teardown is armed, whose container is then under the overlay; so there
    is never more than one, and none is left once the highlight has been
    set to null. *)
Theorem no_dangling_transition_listener (es : list Event) :
  Forall wf_event es ->
  (forall n, TransitionEnd n ∈ listeners (dom (exec created es)) ->
     exists c x,
       highlightDisposable (exec created es) =
         highlightTeardown (TransitionEnd n) c x /\
       in_overlay (exec created es) x) /\
  (forall n m, TransitionEnd n ∈ listeners (dom (exec created es)) ->
     TransitionEnd m ∈ listeners (dom (exec created es)) -> n = m) /\
  (forall n, TransitionEnd n ∉
     listeners (dom (resume (set_highlight None (exec created es))))).
Proof.
  intros Hes.
  destruct (exec_single_tidy created es Hes single_created tidy_created)
    as [Hs Ht].
  split; [|split].
  - intros n Hn. destruct Ht as (H1 & _). destruct (H1 n Hn) as (c & x & E).
    exists c, x. split; [exact E|].
    apply (single_only _ _ _ _ Hs E). reflexivity.
  - intros n m Hn Hm. destruct Ht as (H1 & _).
    destruct (H1 n Hn) as (c & x & E), (H1 m Hm) as (c' & x' & E').
    congruence.
  - apply tidy_collapse, Ht.
Qed.

Lemma no_dangling_transition_listener_witness :
  Forall wf_event (two_rows ++ [Select [toEntry sample_extension];
                                Select [toEntry other_extension]]) /\
  TransitionEnd 0 ∉
    listeners (dom (exec created
      (two_rows ++ [Select [toEntry sample_extension];
                    Select [toEntry other_extension]]))).
Proof.
  assert (Hwf : Forall wf_event
            (two_rows ++ [Select [toEntry sample_extension];
                          Select [toEntry other_extension]])).
  { repeat constructor; simpl; unfold wf_extension; simpl; eauto. }
  split; [exact Hwf|].
  intros H0.
  assert (H1 : TransitionEnd 1 ∈ listeners (dom (exec created
            (two_rows ++ [Select [toEntry sample_extension];
                          Select [toEntry other_extension]])))).
  { apply list_elem_of_In. vm_compute. auto. }
  pose proof (proj1 (proj2 (no_dangling_transition_listener _ Hwf)) _ _ H0 H1).
  discriminate.
Defined.

(** ** A new search and the highlight *)

Lemma triggerSearch_log (txt : string) (delay : Z) (s : ExtensionsPart) :
  log (resume (triggerSearch txt delay s)) =
  log s ++
  match disposed_listener (highlightDisposable s) with
  | Some l => if decide (l ∈ listeners (dom s)) then [RemoveListener l] else []
  | None => []
  end ++
  match highlightDisposable s with
  | highlightTeardown _ c x => [AppendChild c x; SetBody x ""]
  | _ => []
  end ++ [SetModel].
Proof.
  unfold triggerSearch. rewrite collapse_returns. cbn [andThen resume].
  change (log (with_dom ?f (set_searchDelayer ?d (set_list_model ?m ?y))))
    with (log y ++ [SetModel]).
  change (log (set_highlightDisposable empty ?y)) with (log y).
  rewrite log_dispose_one. rewrite <- !app_assoc. reflexivity.
Qed.

(** X10. In such a run, when [triggerSearch] returns no container is under
    the overlay, no [transitionend] listener is registered and the list
    holds the empty model; a container that was under the overlay was put
    back under its row, and its body emptied, before the model was
    replaced. *)
Theorem search_collapses_first (es : list Event) (txt : string) (delay : Z) :
  Forall wf_event es ->
  (forall t, ~ in_overlay (resume (triggerSearch txt delay (exec created es))) t) /\
  (forall n, TransitionEnd n ∉
     listeners (dom (resume (triggerSearch txt delay (exec created es))))) /\
  list_model (resume (triggerSearch txt delay (exec created es))) = EmptyModel /\
  (forall x, in_overlay (exec created es) x ->
     exists k before,
       log (resume (triggerSearch txt delay (exec created es))) =
       log (exec created es) ++ before ++
         [AppendChild (Row k) x; SetBody x ""; SetModel]).
Proof.
  intros Hes.
  destruct (exec_single_tidy created es Hes single_created tidy_created)
    as [Hs Ht].
  revert Hs Ht. generalize (exec created es). intros s Hs Ht.
  split; [|split; [|split]].
  - intros t Hin. apply in_overlay_lookup in Hin as (tpl & Hl & Hp).
    pose proof (single_triggerSearch txt delay s Hs) as (_ & Hhd & _).
    destruct (triggerSearch_spec txt delay s) as (s' & E & _ & _ & _ & _ & _ & Hemp & _).
    rewrite E in *. cbn [resume] in *. rewrite Hemp in Hhd. eapply Hhd; eauto.
  - apply tidy_triggerSearch, Ht.
  - destruct (triggerSearch_spec txt delay s) as (s' & -> & _ & _ & _ & Hm & _).
    exact Hm.
  - intros x Hx. rewrite triggerSearch_log.
    destruct Hs as (_ & Hhd & _).
    apply in_overlay_lookup in Hx as (tpl & Hl & Hp).
    destruct (highlightDisposable s) as [|l|l c y].
    + exfalso. eapply Hhd; eauto.
    + contradiction.
    + destruct Hhd as (Hc & _ & Honly).
      rewrite (Honly x tpl Hl Hp).
      destruct c as [k|]; [|contradiction].
      exists k. eexists. cbn [disposed_listener]. reflexivity.
Qed.

Lemma search_collapses_first_witness :
  Forall wf_event (two_rows ++ [Select [toEntry sample_extension]]) /\
  in_overlay (exec created (two_rows ++ [Select [toEntry sample_extension]])) 0 /\
  ~ in_overlay (resume (triggerSearch "foo" 500
       (exec created (two_rows ++ [Select [toEntry sample_extension]])))) 0.
Proof.
  assert (Hwf : Forall wf_event (two_rows ++ [Select [toEntry sample_extension]])).
  { repeat constructor; simpl; unfold wf_extension; simpl; eauto. }
  split; [exact Hwf|]. split; [vm_compute; reflexivity|].
  apply (proj1 (search_collapses_first
                  (two_rows ++ [Select [toEntry sample_extension]])
                  "foo" 500 Hwf)).
Defined.

(** ** The renderer's templates *)

Lemma remove_first_spec (x y : nat) (l : list nat) :
  NoDup l -> (In y (remove_first x l) <-> In y l /\ y <> x).
Proof.
  induction 1 as [|a l Ha Hl IH]; simpl; [tauto|].
  destruct (Nat.eqb x a) eqn:E.
  - apply Nat.eqb_eq in E. subst a. split.
    + intros Hy. split; [auto|]. intros ->. apply Ha, list_elem_of_In, Hy.
    + intros [[Hy | Hy] Hne]; [congruence | exact Hy].
  - apply Nat.eqb_neq in E. simpl. rewrite IH. split.
    + intros [<- | [Hy Hne]]; [split; [auto | congruence] | auto].
    + intros [[Hy | Hy] Hne]; auto.
Qed.

Lemma remove_first_snoc (x : nat) (l : list nat) :
  ~ In x l -> remove_first x (l ++ [x]) = l.
Proof.
  induction l as [|a l IH]; intros Hx; simpl.
  - rewrite Nat.eqb_refl. reflexivity.
  - destruct (Nat.eqb x a) eqn:E.
    + apply Nat.eqb_eq in E. exfalso. apply Hx. left. congruence.
    + rewrite IH; [reflexivity|]. intros H. apply Hx. right. exact H.
Qed.

(** X11. In such a run the renderer's templates are distinct and each is in
    the store. [disposeTemplate] takes out the template it is given and no
    other, and nothing if it is not there; a template made by
    [renderTemplate] is new, unbound and under its row, and disposing of it
    right away gives the list of templates back. *)
Theorem renderer_templates (es : list Event) :
  Forall wf_event es ->
  NoDup (templates (exec created es)) /\
  (forall t, In t (templates (exec created es)) ->
     is_Some (heap (dom (exec created es)) !! t)) /\
  (forall data t,
     In t (templates (resume (disposeTemplate data (exec created es)))) <->
     In t (templates (exec created es)) /\ t <> data) /\
  (forall k,
     ~ In (length (heap (dom (exec created es)))) (templates (exec created es)) /\
     templates (resume (renderTemplate k (exec created es))) =
       templates (exec created es) ++ [length (heap (dom (exec created es)))] /\
     parent_of (resume (renderTemplate k (exec created es)))
       (length (heap (dom (exec created es)))) = Some (Row k) /\
     templates (resume (disposeTemplate (length (heap (dom (exec created es))))
                          (resume (renderTemplate k (exec created es)))))
       = templates (exec created es)).
Proof.
  intros Hes.
  destruct (exec_single_tidy created es Hes single_created tidy_created)
    as [_ (_ & _ & Hnd & Hlt)].
  revert Hnd Hlt. generalize (exec created es). intros s Hnd Hlt.
  assert (Hfresh : ~ In (length (heap (dom s))) (templates s)).
  { intros Hin. apply Hlt in Hin. lia. }
  split; [exact Hnd|]. split; [|split].
  - intros t Hin. apply lookup_lt_is_Some, Hlt, Hin.
  - intros data t. cbn. apply remove_first_spec, Hnd.
  - intros k. split; [exact Hfresh|]. split; [reflexivity|]. split.
    + unfold parent_of. cbn. rewrite lookup_app_r by lia.
      rewrite Nat.sub_diag. reflexivity.
    + cbn. apply remove_first_snoc, Hfresh.
Qed.

Lemma renderer_templates_witness :
  Forall wf_event two_rows /\
  (In 1%nat (templates (resume (disposeTemplate 0 (exec created two_rows)))) <->
   In 1%nat (templates (exec created two_rows)) /\ 1%nat <> 0%nat).
Proof.
  assert (Hwf : Forall wf_event two_rows).
  { repeat constructor; simpl; unfold wf_extension; simpl; eauto. }
  split; [exact Hwf|].
  exact (proj1 (proj2 (proj2 (renderer_templates two_rows Hwf))) 0%nat 1%nat).
Defined.

(** ** Which template a selection expands *)

Lemma bound_to_torn_down (s : ExtensionsPart) (id : string) (t : nat) :
  bound_to (torn_down s) id t = bound_to s id t.
Proof.
  unfold bound_to, torn_down. cbv zeta.
  change (heap (dom (set_highlightDisposable empty ?y))) with (heap (dom y)).
  rewrite heap_dispose_one.
  change (highlightDisposable (with_dom ?f s)) with (highlightDisposable s).
  change (heap (dom (with_dom (dom_root deselect_classes) s)))
    with (heap (dom s)).
  destruct (highlightDisposable s) as [|l|l c x]; try reflexivity.
  destruct (decide (t = x)) as [->|Hne].
  - rewrite !list_lookup_alter_eq.
    destruct (heap (dom s) !! x) as [tpl|]; reflexivity.
  - rewrite !list_lookup_alter_ne by congruence. reflexivity.
Qed.

Lemma filter_nil_inv {A : Type} (f : A -> bool) (l : list A) (x : A) :
  List.filter f l = [] -> In x l -> f x = false.
Proof.
  induction l as [|a l IH]; simpl; [tauto|].
  destruct (f a) eqn:E; [discriminate|].
  intros H [<- | Hx]; auto.
Qed.

(** X12. Of the selected entries only the first counts. The callback expands
    a template only if it is one of the renderer's templates and is bound,
    before the teardown, to an extension with the id of that entry: a
    placeholder row or a disposed template is never expanded. If no
    template of the renderer is bound to that id, the callback only tears
    down. *)
Theorem selection_expands_bound_template (s : ExtensionsPart)
    (selected : IExtensionEntry) (rest : list IExtensionEntry) :
  onSelectionChange (selected :: rest) s = onSelectionChange [selected] s /\
  ((onSelectionChange (selected :: rest) s = Done (torn_down s) /\
    forall t tpl e, In t (templates s) -> heap (dom s) !! t = Some tpl ->
      tpl_extension tpl = Some e ->
      getExtensionId e <> getExtensionId (extension selected)) \/
   (exists y tpl e,
      In y (templates s) /\ heap (dom s) !! y = Some tpl /\
      tpl_extension tpl = Some e /\
      getExtensionId e = getExtensionId (extension selected) /\
      onSelectionChange (selected :: rest) s
        = set_highlight (Some y) (torn_down s))).
Proof.
  split; [reflexivity|].
  unfold onSelectionChange. cbv zeta.
  set (id := getExtensionId (extension selected)).
  change (List.filter _ (templates (torn_down s)))
    with (List.filter (bound_to (torn_down s) id) (templates (torn_down s))).
  destruct (torn_down_shape s) as (_ & _ & Hts & _).
  rewrite Hts.
  rewrite (List.filter_ext _ _ (bound_to_torn_down s id)).
  destruct (List.filter (bound_to s id) (templates s)) as [|y ys] eqn:Hf.
  - left. split; [reflexivity|]. intros t tpl e Hin Hl He Hid.
    pose proof (filter_nil_inv _ _ t Hf Hin) as Hb.
    unfold bound_to in Hb. rewrite Hl, He in Hb.
    apply String.eqb_neq in Hb. contradiction.
  - right.
    assert (Hin : In y (List.filter (bound_to s id) (templates s)))
      by (rewrite Hf; left; reflexivity).
    apply filter_In in Hin as [Hin Hb]. unfold bound_to in Hb.
    destruct (heap (dom s) !! y) as [tpl|] eqn:Hl; [|discriminate].
    destruct (tpl_extension tpl) as [e|] eqn:He; [|discriminate].
    apply String.eqb_eq in Hb. exists y, tpl, e. auto.
Qed.

(** ** Rendering and the highlight *)

(** X13. Rendering a row, as an element or as a placeholder, returning or
    throwing, never moves a container, never touches a listener, the
    highlight reference, its disposable or the pending work, and logs no
    effect: a template that is re-rendered while it is highlighted stays
    under the overlay with its teardown armed. After [renderPlaceholder] the
    template is bound to nothing. *)
Theorem rendering_keeps_highlight (s : ExtensionsPart) (entry : IExtensionEntry)
    (index : Z) (data : nat) :
  (forall o, o = renderElement entry index data s \/
             o = renderPlaceholder index data s ->
     (forall t, parent_of (resume o) t = parent_of s t) /\
     listeners (dom (resume o)) = listeners (dom s) /\
     _highlight (resume o) = _highlight s /\
     highlightDisposable (resume o) = highlightDisposable s /\
     env (resume o) = env s /\
     log (resume o) = log s /\
     templates (resume o) = templates s) /\
  (forall tpl, heap (dom (resume (renderPlaceholder index data s))) !! data = Some tpl ->
     tpl_extension tpl = None /\ body_html tpl = "").
Proof.
  assert (Hpar : forall (f : ITemplateData -> ITemplateData)
                        (h : list ITemplateData) (t : nat),
    (forall x, container_parent (f x) = container_parent x) ->
    container_parent <$> alter f data h !! t = container_parent <$> h !! t).
  { intros f h t Hf. destruct (decide (t = data)) as [->|Hne].
    - rewrite list_lookup_alter_eq. destruct (h !! data); simpl; [|reflexivity].
      rewrite Hf. reflexivity.
    - rewrite list_lookup_alter_ne by congruence. reflexivity. }
  split.
  - intros o [-> | ->].
    + unfold renderElement, parent_of.
      destruct (galleryInformation _) as [gi|]; [destruct (versions gi)|];
        cbn; repeat split; try reflexivity; intros t; apply Hpar; reflexivity.
    + unfold renderPlaceholder, parent_of. cbn.
      repeat split; try reflexivity. intros t. apply Hpar. reflexivity.
  - intros tpl. cbn. rewrite list_lookup_alter_eq.
    destruct (heap (dom s) !! data); simpl; [|discriminate].
    intros [= <-]. split; reflexivity.
Qed.

Lemma rendering_keeps_highlight_witness :
  parent_of (resume (renderPlaceholder 0 0 sample_highlighted)) 0
    = parent_of sample_highlighted 0 /\
  parent_of sample_highlighted 0 = Some OverlayEl.
Proof.
  split; [|vm_compute; reflexivity].
  exact (proj1 (proj1 (rendering_keeps_highlight sample_highlighted
                         (toEntry sample_extension) 0 0%nat)
                  (renderPlaceholder 0 0 sample_highlighted)
                  (or_intror eq_refl)) 0%nat).
Defined.

(** ** Handlers that are never released *)

Lemma expand_any (s : ExtensionsPart) (d : nat) :
  (forall x, x ∈ listeners (dom s) ->
     x ∈ listeners (dom (resume (set_highlight (Some d) s)))) /\
  (highlightDisposable (resume (set_highlight (Some d) s)) = highlightDisposable s \/
   exists c, highlightDisposable (resume (set_highlight (Some d) s)) =
             highlightTeardown (TransitionEnd (nextListener (env s))) c d) /\
  toDispose (resume (set_highlight (Some d) s)) = toDispose s.
Proof.
  destruct s as [[hp ls rc sb bh bl ot oh] [ck qs fs nf nl]
                   ts m dl hl hd td lg].
  unfold set_highlight, listen. unfold_updates. cbn [env nextListener].
  destruct (hp !! d) as [tpl|]; [|cbn; auto].
  destruct (tpl_extension tpl) as [e|];
    [destruct (galleryInformation e) as [gi|]; [destruct (versions gi)|]|];
    cbn; (split; [intros x Hx; apply elem_of_app; left; exact Hx|]); eauto.
Qed.

Lemma step_handlers_kept (e : Event) (s : ExtensionsPart) :
  handlers_kept s -> handlers_kept (resume (step e s)).
Proof.
  intros Hk.
  assert (Hcol : forall s0, handlers_kept s0 ->
            handlers_kept (resume (set_highlight None s0))).
  { intros s0 (H1 & H2 & H3 & H4).
    destruct (collapse_shape s0) as (Hl & Hhd & Htd & _).
    unfold handlers_kept. rewrite Hhd, Htd.
    split; [exact I|]. split; [exact H2|].
    destruct (highlightDisposable s0) as [|l|l c x]; [| contradiction |];
      split; apply Hl; split; auto; try discriminate;
      destruct l; simpl in *; discriminate. }
  assert (Htrig : forall txt delay s0, handlers_kept s0 ->
            handlers_kept (resume (triggerSearch txt delay s0))).
  { intros txt delay s0 H0. unfold triggerSearch. rewrite collapse_returns.
    cbn [andThen resume]. apply Hcol in H0. rewrite collapse_returns in H0.
    exact H0. }
  destruct e; cbn [step]; try exact Hk.
  - unfold renderElement.
    destruct (galleryInformation _) as [gi|]; [destruct (versions gi)|]; exact Hk.
  - case_decide; [|exact Hk]. unfold onRootClick.
    destruct (_ && _); [apply Hcol, Hk | exact Hk].
  - case_decide; [|exact Hk]. apply Htrig. exact Hk.
  - case_decide; [|exact Hk].
    assert (Ht : handlers_kept (torn_down s)).
    { destruct Hk as (H1 & H2 & H3 & H4).
      destruct (torn_down_shape s) as (Hl & Htd & _).
      unfold handlers_kept. rewrite Htd. split; [exact I|]. split; [exact H2|].
      destruct (highlightDisposable s) as [|l|l c x]; [| contradiction |];
        split; apply Hl; split; auto; try discriminate;
        destruct l; simpl in *; discriminate. }
    destruct (onSelectionChange_unfold elements s)
      as [-> | (d & _ & _ & _ & _ & ->)]; [exact Ht|].
    destruct Ht as (H1 & H2 & H3 & H4).
    destruct (expand_any (torn_down s) d) as (Hl & Hhd & Htd).
    unfold handlers_kept. rewrite Htd.
    split; [|split; [exact H2|split; apply Hl; assumption]].
    destruct Hhd as [-> | (c & ->)]; [exact H1 | reflexivity].
  - cbn [resume]. destruct Hk as (H1 & H2 & H3 & H4).
    destruct (transitions_frame (List.filter is_transitionend (listeners (dom s))) s)
      as (_ & Hhd & Htd & _).
    unfold handlers_kept. rewrite Hhd, Htd.
    split; [exact H1|]. split; [exact H2|].
    split; apply listeners_transitions; (split; [assumption|]);
      intros Hin; apply list_elem_of_In, filter_In in Hin as [_ Hin]; discriminate.
  - cbn [resume]. unfold elapse. cbv zeta.
    destruct (timer _) as [p|]; [destruct (_ <=? _)|]; exact Hk.
  - unfold querySettled. destruct (find _ _); [|exact Hk]. destruct r; exact Hk.
  - unfold fetchSettled. destruct (find _ _) as [f|]; [|exact Hk].
    destruct (downloadOptions f r), (readme f r); exact Hk.
  - unfold setVisible. destruct visible; [|exact Hk].
    rewrite collapse_returns. cbn [andThen]. apply Htrig.
    apply Hcol in Hk. rewrite collapse_returns in Hk. exact Hk.
  - unfold layout. cbn [resume]. case_bool_decide; exact Hk.
  - unfold dispose. cbn [resume]. cbv zeta.
    change (toDispose (set__highlight None s)) with (toDispose s).
    destruct Hk as (H1 & H2 & H3 & H4).
    destruct (dispose_all_frame (toDispose s) (set__highlight None s))
      as (_ & _ & _ & _ & _ & Hl).
    assert (Hnt : Forall (fun d => match d with
                                   | highlightTeardown _ _ _ => False
                                   | _ => True
                                   end) (toDispose s)).
    { eapply Forall_impl; [exact H2|]. intros d ->. exact I. }
    destruct (dispose_all_heap (toDispose s) (set__highlight None s) Hnt)
      as [_ Hhd].
    set (X := foldl (fun s d => dispose_one d s) (set__highlight None s) (toDispose s)) in *.
    unfold handlers_kept.
    change (dom (set_toDispose [] X)) with (dom X).
    change (highlightDisposable (set_toDispose [] X)) with (highlightDisposable X).
    change (toDispose (set_toDispose [] X)) with (@nil IDisposable).
    rewrite Hhd. split; [exact H1|]. split; [constructor|].
    split; apply Hl; (split; [assumption|]);
      (eapply Forall_impl; [exact H2|]); intros d ->; discriminate.
Qed.

Lemma handlers_kept_created : handlers_kept created.
Proof.
  unfold handlers_kept. vm_compute. split; [exact I|]. split.
  - repeat constructor.
  - split; apply list_elem_of_In; simpl; auto.
Qed.

(** X14. Whatever the run, also past [dispose()] and past handlers that
    threw, the input handler of the search box and the selection handler of
    the list stay registered: typing still schedules a search and a
    selection still runs the selection callback. *)
Theorem input_and_selection_never_released (es : list Event) :
  SearchInput ∈ listeners (dom (exec created es)) /\
  SelectionChange ∈ listeners (dom (exec created es)) /\
  (forall txt, step (Input txt) (exec created es) =
     triggerSearch txt 500 (with_dom (dom_searchBox txt) (exec created es))) /\
  (forall elements, step (Select elements) (exec created es) =
     onSelectionChange elements (exec created es)).
Proof.
  assert (Hk : handlers_kept (exec created es)).
  { generalize handlers_kept_created. generalize created.
    induction es as [|e es IH]; intros s Hs; simpl; [exact Hs|].
    apply IH, step_handlers_kept, Hs. }
  destruct Hk as (_ & _ & H3 & H4).
  split; [exact H3|]. split; [exact H4|]. split.
  - intros txt. cbn [step]. case_decide; [reflexivity | contradiction].
  - intros elements. cbn [step]. case_decide; [reflexivity | contradiction].
Qed.

Lemma selection_expands_bound_template_witness :
  onSelectionChange [toEntry other_extension; toEntry sample_extension]
    (exec created two_rows)
  = onSelectionChange [toEntry other_extension] (exec created two_rows).
Proof.
  exact (proj1 (selection_expands_bound_template (exec created two_rows)
                  (toEntry other_extension) [toEntry sample_extension])).
Defined.

(** ** Where the containers go back to *)

Lemma expand_heap_any (s : ExtensionsPart) (d : nat) :
  heap (dom (resume (set_highlight (Some d) s))) =
    alter (tpl_set_parent OverlayEl) d (heap (dom s)) /\
  (highlightDisposable (resume (set_highlight (Some d) s)) = highlightDisposable s \/
   exists tpl, heap (dom s) !! d = Some tpl /\
     highlightDisposable (resume (set_highlight (Some d) s)) =
     highlightTeardown (TransitionEnd (nextListener (env s)))
       (container_parent tpl) d).
Proof.
  destruct s as [[hp ls rc sb bh bl ot oh] [ck qs fs nf nl]
                   ts m dl hl hd td lg].
  unfold set_highlight, listen. unfold_updates. cbn [env nextListener].
  destruct (hp !! d) as [tpl|] eqn:Hd.
  - destruct (tpl_extension tpl) as [e|];
      [destruct (galleryInformation e) as [gi|]; [destruct (versions gi)|]|];
      cbn; (split; [reflexivity|]); eauto.
  - cbn. split; [|auto]. symmetry. apply list_eq. intros i.
    destruct (decide (i = d)) as [->|Hne].
    + rewrite list_lookup_alter_eq, Hd. reflexivity.
    + rewrite list_lookup_alter_ne by congruence. reflexivity.
Qed.

Lemma placed_alter (f : ITemplateData -> ITemplateData) (d : nat)
    (rows : list nat) (s s' : ExtensionsPart) :
  (forall t, container_parent (f t) = container_parent t \/
             container_parent (f t) = OverlayEl) ->
  heap (dom s') = alter f d (heap (dom s)) ->
  (highlightDisposable s' = highlightDisposable s \/
   highlightDisposable s' = empty) ->
  placed rows s -> placed rows s'.
Proof.
  intros Hf Hh Hhd (Hlen & Hpar & Harm). unfold placed. rewrite Hh.
  split; [rewrite length_alter; exact Hlen|]. split.
  - intros t tpl' k Ht Hk.
    apply alter_lookup_inv in Ht as (tpl & Ht & [[_ ->] | [_ ->]]).
    + destruct (Hf tpl) as [-> | ->]; [eapply Hpar; eauto | auto].
    + eapply Hpar; eauto.
  - intros l c x E. destruct Hhd as [Hhd | Hhd]; rewrite Hhd in E;
      [eapply Harm; eauto | discriminate].
Qed.

Lemma placed_same (rows : list nat) (s s' : ExtensionsPart) :
  heap (dom s') = heap (dom s) ->
  highlightDisposable s' = highlightDisposable s ->
  placed rows s -> placed rows s'.
Proof.
  intros Hh Hhd (Hlen & Hpar & Harm). unfold placed. rewrite Hh, Hhd. auto.
Qed.

Lemma placed_teardown (rows : list nat) (s s' : ExtensionsPart) :
  heap (dom s') =
    match highlightDisposable s with
    | highlightTeardown _ c x =>
        alter (tpl_set_body "") x (alter (tpl_set_parent c) x (heap (dom s)))
    | _ => heap (dom s)
    end ->
  highlightDisposable s' = empty ->
  placed rows s -> placed rows s'.
Proof.
  intros Hh Hhd (Hlen & Hpar & Harm). unfold placed. rewrite Hh, Hhd.
  destruct (highlightDisposable s) as [|l|l c x] eqn:E.
  - split; [exact Hlen|]. split; [exact Hpar|]. discriminate.
  - split; [exact Hlen|]. split; [exact Hpar|]. discriminate.
  - destruct (Harm l c x eq_refl) as (k & Hk & Hc).
    split; [rewrite !length_alter; exact Hlen|]. split; [|discriminate].
    intros t tpl' k' Ht Hk'.
    apply alter_lookup_inv in Ht as (tpl1 & Ht & H1).
    apply alter_lookup_inv in Ht as (tpl & Ht & H2).
    destruct H1 as [[Hx ->] | [Hx ->]], H2 as [[Hx' ->] | [Hx' ->]];
      try congruence; cbn.
    + subst t. rewrite Hk in Hk'. injection Hk' as <-. exact Hc.
    + eapply Hpar; eauto.
Qed.

Lemma placed_collapse (rows : list nat) (s : ExtensionsPart) :
  placed rows s -> placed rows (resume (set_highlight None s)).
Proof.
  intros Hp. apply (placed_teardown rows s); [| |exact Hp].
  - rewrite collapse_returns. cbn [resume].
    change (heap (dom (set_highlightDisposable empty ?y))) with (heap (dom y)).
    rewrite heap_dispose_one. reflexivity.
  - apply (collapse_shape s).
Qed.

Lemma placed_torn_down (rows : list nat) (s : ExtensionsPart) :
  placed rows s -> placed rows (torn_down s).
Proof.
  intros Hp. apply (placed_teardown rows s); [| reflexivity | exact Hp].
  unfold torn_down. cbv zeta.
  change (heap (dom (set_highlightDisposable empty ?y))) with (heap (dom y)).
  rewrite heap_dispose_one. reflexivity.
Qed.

Lemma placed_triggerSearch (rows : list nat) (txt : string) (delay : Z)
    (s : ExtensionsPart) :
  placed rows s -> placed rows (resume (triggerSearch txt delay s)).
Proof.
  intros Hp. unfold triggerSearch. rewrite collapse_returns. cbn [andThen resume].
  apply placed_collapse in Hp. rewrite collapse_returns in Hp. exact Hp.
Qed.

Lemma step_placed (e : Event) (rows : list nat) (s : ExtensionsPart) :
  handlers_kept s -> placed rows s ->
  placed (rows ++ rendered_rows [e]) (resume (step e s)).
Proof.
  intros Hk Hp.
  destruct e; cbn [rendered_rows omap]; rewrite ?app_nil_r; cbn [step].
  - destruct Hp as (Hlen & Hpar & Harm). unfold placed. cbn.
    split; [rewrite !length_app, Hlen; reflexivity|]. split.
    + intros t tpl k Ht Hk'.
      apply lookup_app_Some in Ht as [Ht | [Hge Ht]].
      * apply lookup_lt_Some in Ht as Hlt.
        rewrite lookup_app_l in Hk' by lia. eapply Hpar; eauto.
      * destruct (t - length (heap (dom s)))%nat eqn:Ed; [|discriminate].
        cbn in Ht. injection Ht as <-. left. cbn.
        assert (t = length rows) by lia. subst t.
        rewrite lookup_app_r in Hk' by lia.
        rewrite Nat.sub_diag in Hk'. cbn in Hk'. congruence.
    + intros l c x E. destruct (Harm l c x E) as (k & Hk' & Hc).
      exists k. split; [|exact Hc]. apply lookup_app_l_Some, Hk'.
  - eapply placed_alter; [| reflexivity | left; reflexivity | exact Hp].
    intros t. left. reflexivity.
  - unfold renderElement.
    destruct (galleryInformation _) as [gi|]; [destruct (versions gi)|];
      try exact Hp;
      (eapply placed_alter; [| reflexivity | left; reflexivity | exact Hp]);
      intros t; left; reflexivity.
  - exact Hp.
  - case_decide; [|exact Hp]. unfold onRootClick.
    destruct (_ && _); [apply placed_collapse, Hp | exact Hp].
  - case_decide; [|exact Hp]. apply placed_triggerSearch.
    apply (placed_same rows s); auto.
  - case_decide; [|exact Hp].
    pose proof (placed_torn_down rows s Hp) as Ht.
    destruct (onSelectionChange_unfold elements s)
      as [-> | (d & _ & _ & _ & _ & ->)]; [exact Ht|].
    destruct (expand_heap_any (torn_down s) d) as (Hh & Hhd).
    destruct Ht as (Hlen & Hpar & Harm). unfold placed. rewrite Hh.
    split; [rewrite length_alter; exact Hlen|]. split.
    + intros t tpl' k Ht Hk'.
      apply alter_lookup_inv in Ht as (tpl & Ht & [[_ ->] | [_ ->]]);
        [right; reflexivity | eapply Hpar; eauto].
    + intros l c x E. destruct Hhd as [Hhd | (tpl & Hd & Hhd)];
        rewrite Hhd in E; [eapply Harm; eauto|].
      injection E as <- <- <-.
      assert (Hlt : (d < length rows)%nat)
        by (rewrite <- Hlen; eapply lookup_lt_Some; eauto).
      destruct (lookup_lt_is_Some_2 rows d Hlt) as [k Hk'].
      exists k. split; [exact Hk'|]. eapply Hpar; eauto.
  - cbn [resume].
    destruct (transitions_frame (List.filter is_transitionend (listeners (dom s))) s)
      as (Hh & Hhd & _).
    apply (placed_same rows s); auto.
  - cbn [resume]. unfold elapse. cbv zeta.
    destruct (timer _) as [p|]; [destruct (_ <=? _)|]; exact Hp.
  - unfold querySettled. destruct (find _ _); [|exact Hp]. destruct r; exact Hp.
  - unfold fetchSettled. destruct (find _ _) as [f|]; [|exact Hp].
    destruct (downloadOptions f r), (readme f r); cbn [resume];
      try exact Hp;
      (eapply placed_alter; [| reflexivity | left; reflexivity | exact Hp]);
      intros t; left; reflexivity.
  - unfold setVisible. destruct visible; [|exact Hp].
    rewrite collapse_returns. cbn [andThen].
    apply placed_triggerSearch. apply placed_collapse in Hp.
    rewrite collapse_returns in Hp. apply (placed_same _ _ _ eq_refl eq_refl Hp).
  - unfold layout. cbn [resume]. case_bool_decide; exact Hp.
  - unfold dispose. cbn [resume]. cbv zeta.
    change (toDispose (set__highlight None s)) with (toDispose s).
    destruct Hk as (_ & Htd & _).
    assert (Hnt : Forall (fun d => match d with
                                   | highlightTeardown _ _ _ => False
                                   | _ => True
                                   end) (toDispose s)).
    { eapply Forall_impl; [exact Htd|]. intros d ->. exact I. }
    destruct (dispose_all_heap (toDispose s) (set__highlight None s) Hnt)
      as [Hh Hhd].
    apply (placed_same rows s); [exact Hh | exact Hhd | exact Hp].
Qed.

Lemma rendered_rows_cons (e : Event) (es : list Event) :
  rendered_rows (e :: es) = rendered_rows [e] ++ rendered_rows es.
Proof. unfold rendered_rows. cbn. destruct e; reflexivity. Qed.

Lemma exec_placed (es : list Event) :
  forall (rows : list nat) (s : ExtensionsPart),
    handlers_kept s -> placed rows s ->
    placed (rows ++ rendered_rows es) (exec s es).
Proof.
  induction es as [|e es IH]; intros rows s Hk Hp.
  - cbn. rewrite app_nil_r. exact Hp.
  - rewrite rendered_rows_cons, app_assoc. cbn [exec foldl].
    apply IH; [apply step_handlers_kept, Hk | apply step_placed; assumption].
Qed.

Lemma placed_created : placed [] created.
Proof.
  unfold placed. vm_compute. split; [reflexivity|]. split.
  - intros t tpl k Ht. destruct t; discriminate.
  - discriminate.
Qed.

(** ** The single highlight, over runs *)

(** C3, as the code has it. In a run in which the list renders extensions
    that carry a version, at most one container is ever under the overlay;
    and whenever the teardown of a highlighted template is armed, it holds
    the row that template was rendered for and the only [transitionend]
    listener that can be registered, and a selection first puts the
    container back under that row, leaves no [transitionend] listener
    registered and empties the body, and only then starts the next
    expansion, which ends with one container under the overlay. *)
Theorem single_active_highlight (es : list Event) :
  Forall wf_event es ->
  (forall t t', in_overlay (exec created es) t ->
     in_overlay (exec created es) t' -> t = t') /\
  (forall l c x elements,
     highlightDisposable (exec created es) = highlightTeardown l c x ->
     tears_down_first (exec created es) l c x elements /\
     (exists k, rendered_rows es !! x = Some k /\ c = Row k) /\
     (forall n, TransitionEnd n ∈ listeners (dom (exec created es)) ->
        l = TransitionEnd n) /\
     (forall n, TransitionEnd n ∉ listeners (dom (torn_down (exec created es))))).
Proof.
  intros Hes.
  destruct (exec_single_tidy created es Hes single_created tidy_created)
    as [Hs Ht].
  pose proof (exec_placed es [] created handlers_kept_created placed_created)
    as Hp.
  cbn [app] in Hp. revert Hs Ht Hp. generalize (exec created es).
  intros s Hs Ht Hp.
  split.
  - intros t t'. apply single_at_most_one, Hs.
  - intros l c x elements E.
    split; [apply selection_tears_down_first; assumption|].
    split; [|split].
    + destruct Hp as (_ & _ & Harm). destruct (Harm l c x E) as (k & Hk & Hc).
      exists k. split; [exact Hk|].
      destruct Hc as [Hc | Hc]; [exact Hc|].
      destruct (single_only s l c x Hs E) as [Hne _]. contradiction.
    + intros n Hn. destruct Ht as (H1 & _).
      destruct (H1 n Hn) as (c' & x' & E'). congruence.
    + destruct (torn_down_shape s) as (Hl & Htd & Hts & Hlen & _).
      destruct (single_torn_down s Hs) as [_ Hhd].
      apply (tidy_collapsed s (torn_down s) Ht Hl Hhd Htd Hts Hlen).
Qed.

Lemma single_active_highlight_witness :
  Forall wf_event (two_rows ++ [Select [toEntry sample_extension]]) /\
  highlightDisposable (exec created (two_rows ++ [Select [toEntry sample_extension]])) =
    highlightTeardown (TransitionEnd 0) (Row 0) 0 /\
  tears_down_first (exec created (two_rows ++ [Select [toEntry sample_extension]]))
    (TransitionEnd 0) (Row 0) 0 [toEntry other_extension].
Proof.
  assert (Hwf : Forall wf_event (two_rows ++ [Select [toEntry sample_extension]])).
  { repeat constructor; simpl; unfold wf_extension; simpl; eauto. }
  assert (Hhd : highlightDisposable
                  (exec created (two_rows ++ [Select [toEntry sample_extension]])) =
                highlightTeardown (TransitionEnd 0) (Row 0) 0)
    by (vm_compute; reflexivity).
  split; [exact Hwf|]. split; [exact Hhd|].
  exact (proj1 (proj2 (single_active_highlight
                  (two_rows ++ [Select [toEntry sample_extension]]) Hwf)
               (TransitionEnd 0) (Row 0) 0%nat [toEntry other_extension] Hhd)).
Defined.

(** C3, as stated, fails. The gallery hands over an extension without a
    version: [renderElement] throws but has bound it to the first row;
    selecting it makes the setter throw after the swap, with no teardown
    armed; selecting the second row then expands it without putting the
    first container back. Both containers are under the overlay, both
    listeners are registered, and nothing was ever re-appended to a row. *)
Lemma two_containers_under_overlay :
  in_overlay (exec created versionless_run) 0 /\
  in_overlay (exec created versionless_run) 1 /\
  listeners (dom (exec created versionless_run)) =
    [RootClick; SearchInput; SelectionChange; TransitionEnd 0; TransitionEnd 1] /\
  restorations (log (exec created versionless_run)) = [].
Proof. vm_compute. repeat split; reflexivity. Qed.

(** ** Collapse *)

(** C4 fails on the code. Two rows are selected one after the other: the
    selection callback takes [animated] off the root (line 200) and the
    setter adds [animated highlight-in] as one class name (line 285), so the
    root carries [highlight-in] twice. Setting the highlight to null then
    cuts out one of them: the root is left with [highlight-in], and a second
    collapse changes the root again. *)
Theorem collapse_leaves_highlight_in :
  let s := exec created (two_rows ++ [Select [toEntry sample_extension];
                                      Select [toEntry other_extension]]) in
  let s1 := resume (set_highlight None s) in
  let s2 := resume (set_highlight None s1) in
  root_className (dom s) =
    ["extension-manager"; "highlight-in"; "animated"; "highlight-in"] /\
  _highlight s1 = None /\
  highlightDisposable s1 = empty /\
  root_className (dom s1) = ["extension-manager"; "highlight-in"] /\
  root_className (dom s2) = ["extension-manager"] /\
  s2 <> s1.
Proof.
  vm_compute. repeat (split; [reflexivity|]). discriminate.
Qed.

(** X15. Setting the highlight to null returns from every state with the
    highlight reference null and the highlight disposable [empty]; it logs
    at most one re-append of a container under a row, and cuts the first
    [highlighted], [animated] and [highlight-in] out of the root's classes.
    A second collapse right after the first touches nothing but the root's
    classes, from which it cuts the same three names once more. *)
Theorem collapse_total (s : ExtensionsPart) :
  exists s1 effects,
    set_highlight None s = Done s1 /\
    _highlight s1 = None /\
    highlightDisposable s1 = empty /\
    root_className (dom s1) =
      removeClass ["highlight-in"]
        (removeClass ["animated"]
           (removeClass ["highlighted"] (root_className (dom s)))) /\
    log s1 = log s ++ effects /\
    (length (restorations effects) <= 1)%nat /\
    set_highlight None s1 = Done (with_dom (dom_root collapse_classes) s1).
Proof.
  destruct s as [[hp ls rc sb bh bl ot oh] e ts m dl h hd td lg].
  destruct hd as [|l|l [k|] d]; unfold set_highlight, dispose_one, unlisten;
    unfold_updates; repeat case_decide.
  all: eexists; eexists; (split; [reflexivity|]); unfold_updates.
  all: do 3 (split; [reflexivity|]).
  all: rewrite <- ?app_assoc.
  all: (split; [reflexivity || (symmetry; apply app_nil_r)|]).
  all: (split; [simpl; lia|]).
  all: unfold set_highlight, dispose_one; unfold_updates; reflexivity.
Qed.

(** ** Visibility *)


